(** * The task orchestration engine of [ai_coding_agent.py]

    A shallow embedding of [TaskPlan], [AgentMemory] and of the methods of
    [CodingAgent] that plan, execute, evaluate and orchestrate a task,
    and of [chat], which runs a task or answers a question, followed by
    the properties of the plan/execute/evaluate/retry loop, of the
    persistent memory and of [chat].

    Conventions of the embedding.
    - Values that Python builds from [json.loads], or that the agent
      builds from strings, booleans and integers, are terms of [json];
      numbers are Python's unbounded integers (fractional literals are
      not represented).  A Python [dict] is an association list in
      insertion order.
    - The agent is a state record threaded through a state-and-exception
      monad [M]; a Python exception keeps the mutations made before it.
    - The language model, the wall clock and the [json] text codec are
      collaborators of the code: they are variables of the section, and
      every theorem holds for all of them.  The [n]-th call of the model
      may answer anything, also depending on the prompt it is given.
    - A [TaskPlan] object is shared between [memory.task_plans] and the
      local variable [plan] of [execute_task]: a reference to it is its
      position in [memory.task_plans], which only ever grows. *)

From Stdlib Require Import ZArith String Ascii List Lia.
From stdpp Require Import base option list strings pretty gmap.

Local Open Scope Z_scope.
Local Open Scope string_scope.
Local Open Scope list_scope.
Local Set Warnings "-register-all".

(** ** Python values *)

Module Py.

Inductive json : Type :=
  | JNull
  | JBool (b : bool)
  | JInt (z : Z)
  | JStr (s : string)
  | JArr (xs : list json)
  | JObj (kvs : list (string * json)).

(** The exceptions the modelled code can meet; all derive from
    [Exception], so an [except Exception] clause catches each of them. *)
Inductive exn : Type :=
  | JSONDecodeError (msg : string)
  | ValidationError (msg : string)
  | TypeError (msg : string)
  | AttributeError (msg : string)
  | KeyError (msg : string).

Definition exn_class (e : exn) : string :=
  match e with
  | JSONDecodeError _ => "JSONDecodeError"
  | ValidationError _ => "ValidationError"
  | TypeError _ => "TypeError"
  | AttributeError _ => "AttributeError"
  | KeyError _ => "KeyError"
  end.

(** [str(e)] *)
Definition exn_str (e : exn) : string :=
  match e with
  | JSONDecodeError m | ValidationError m | TypeError m
  | AttributeError m | KeyError m => m
  end.

(** [bool(v)] *)
Definition truthy (v : json) : bool :=
  match v with
  | JNull => false
  | JBool b => b
  | JInt z => negb (z =? 0)%Z
  | JStr s => negb (s =? "")%string
  | JArr xs => match xs with [] => false | _ => true end
  | JObj kvs => match kvs with [] => false | _ => true end
  end.

(** [bool(d.get(k))] style tests also meet [None] for a missing key. *)
Definition truthy_opt (v : option json) : bool :=
  match v with Some v => truthy v | None => false end.

Definition type_name (v : json) : string :=
  match v with
  | JNull => "NoneType"
  | JBool _ => "bool"
  | JInt _ => "int"
  | JStr _ => "str"
  | JArr _ => "list"
  | JObj _ => "dict"
  end.

(** *** Dictionaries with string keys *)

Section Dict.
Context {V : Type}.

(** [d.get(k)] *)
Fixpoint dict_get (d : list (string * V)) (k : string) : option V :=
  match d with
  | [] => None
  | (k', v) :: d' => if (k' =? k)%string then Some v else dict_get d' k
  end.

(** [d[k] = v]: an existing key keeps its place, a new one goes last. *)
Fixpoint dict_set (d : list (string * V)) (k : string) (v : V)
  : list (string * V) :=
  match d with
  | [] => [(k, v)]
  | (k', v') :: d' =>
      if (k' =? k)%string then (k', v) :: d' else (k', v') :: dict_set d' k v
  end.
End Dict.

(** [v.get(k)] on an arbitrary value: only a [dict] has the method. *)
Definition py_get (v : json) (k : string) : exn + option json :=
  match v with
  | JObj kvs => inr (dict_get kvs k)
  | _ => inl (AttributeError
                ("'" +:+ type_name v +:+ "' object has no attribute 'get'"))
  end.

(** [v[k]] for a string [k]. *)
Definition py_getitem (v : json) (k : string) : exn + json :=
  match v with
  | JObj kvs =>
      match dict_get kvs k with
      | Some x => inr x
      | None => inl (KeyError ("'" +:+ k +:+ "'"))
      end
  | _ => inl (TypeError ("'" +:+ type_name v +:+ "' object is not subscriptable"))
  end.

(** [list(iter(v))]: what a [for] loop over [v] visits. *)
Fixpoint chars (s : string) : list json :=
  match s with
  | EmptyString => []
  | String c s' => JStr (String c EmptyString) :: chars s'
  end.

Definition py_iter (v : json) : exn + list json :=
  match v with
  | JArr xs => inr xs
  | JStr s => inr (chars s)
  | JObj kvs => inr (map (fun kv => JStr (fst kv)) kvs)
  | _ => inl (TypeError ("'" +:+ type_name v +:+ "' object is not iterable"))
  end.

(** [v + 1], as [v += 1] computes it. *)
Definition py_add1 (v : json) : exn + json :=
  match v with
  | JInt z => inr (JInt (z + 1))
  | JBool b => inr (JInt (Z.b2z b + 1))
  | _ => inl (TypeError
                ("unsupported operand type(s) for +=: '" +:+ type_name v
                 +:+ "' and 'int'"))
  end.

(** *** Dictionaries keyed by arbitrary hashable values

    [learned_patterns] is declared [Dict[str, Any]] but is filled with
    whatever the evaluation lists as a learning, so its keys are the
    hashable [json] values; [True == 1] and [False == 0] as keys. *)

Definition hashable (v : json) : bool :=
  match v with
  | JArr _ | JObj _ => false
  | _ => true
  end.

Definition key_eqb (a b : json) : bool :=
  match a, b with
  | JNull, JNull => true
  | JStr s, JStr t => (s =? t)%string
  | JInt x, JInt y => (x =? y)%Z
  | JInt x, JBool y => (x =? Z.b2z y)%Z
  | JBool x, JInt y => (Z.b2z x =? y)%Z
  | JBool x, JBool y => Bool.eqb x y
  | _, _ => false
  end.

Fixpoint kdict_get (d : list (json * json)) (k : json) : option json :=
  match d with
  | [] => None
  | (k', v) :: d' => if key_eqb k' k then Some v else kdict_get d' k
  end.

Fixpoint kdict_set (d : list (json * json)) (k v : json) : list (json * json) :=
  match d with
  | [] => [(k, v)]
  | (k', v') :: d' =>
      if key_eqb k' k then (k', v) :: d' else (k', v') :: kdict_set d' k v
  end.

(** The key [json.dumps] writes for a dictionary key. *)
Definition key_text (k : json) : string :=
  match k with
  | JStr s => s
  | JInt z => pretty z
  | JBool true => "true"
  | JBool false => "false"
  | _ => "null"
  end.

(** *** [re.search(r'\{.*\}', text, re.DOTALL)]

    With [DOTALL] the greedy [.*] runs over newlines, so the leftmost
    match starts at the first opening brace and ends at the last closing
    brace of the text; there is a match exactly when a closing brace
    follows the first opening one. *)

Fixpoint from_first_open (s : string) : option string :=
  match s with
  | EmptyString => None
  | String c s' => if Ascii.eqb c "{" then Some s' else from_first_open s'
  end.

Fixpoint upto_last_close (s : string) : option string :=
  match s with
  | EmptyString => None
  | String c s' =>
      match upto_last_close s' with
      | Some t => Some (String c t)
      | None => if Ascii.eqb c "}" then Some (String c EmptyString) else None
      end
  end.

(** Whether the character [c] occurs in [s]. *)
Fixpoint mentions (c : ascii) (s : string) : bool :=
  match s with
  | EmptyString => false
  | String c' s' => Ascii.eqb c' c || mentions c s'
  end.

(** [m.group()] of the match, [None] when there is none. *)
Definition re_search_braces (text : string) : option string :=
  match from_first_open text with
  | Some rest => String "{" <$> upto_last_close rest
  | None => None
  end.

End Py.
Export Py.

(** ** The data model *)

(** An instant of the wall clock, as [datetime.now()] returns it. *)
Definition datetime : Type := Z.

Record TaskPlan : Type := mkTaskPlan {
  task_id : string;
  description : string;
  steps : list string;
  status : string;
  created_at : datetime;
  completed_at : option datetime
}.

Record AgentMemory : Type := mkAgentMemory {
  conversation_history : list (list (string * string));
  task_plans : list TaskPlan;
  completed_tasks : list string;
  learned_patterns : list (json * json);
  error_log : list (list (string * json))
}.

(** [AgentMemory()] *)
Definition fresh_memory : AgentMemory := mkAgentMemory [] [] [] [] [].

(** What the agent sends to the language model.  The source renders each
    of these into the text of a [HumanMessage]; the embedding keeps the
    data that goes into the text. *)
Inductive prompt : Type :=
  | PlanningPrompt (user_request : string)
  | ExecutionPrompt (step : string) (context : list (string * json))
      (recent_history : list (list (string * string)))
  | EvaluationPrompt (result : json).

(** The messages [chat] sends when it answers a question: the message of
    the user and the recent history, each entry as a [HumanMessage] or an
    [AIMessage]. *)
Inductive chat_message : Type :=
  | HumanMessage (content : string)
  | AIMessage (content : string).

(** A reference to a [TaskPlan] object held in [memory.task_plans]. *)
Definition plan_ref : Type := nat.

(** A reference to a [dict] object that a method shares with its callees
    (the [context] of [execute_task]): its position in the [heap]. *)
Definition dict_ref : Type := nat.

(** The agent and the world it acts on: its memory, the plan it works on,
    the files on disk, the shared [dict] objects, the exchanges with the
    language model so far and the number of times the clock has been
    read. *)
Record agent : Type := mkAgent {
  memory : AgentMemory;
  current_plan : option plan_ref;
  fs : gmap string string;
  heap : list (list (string * json));
  transcript : list (prompt * string);
  ticks : nat
}.

Definition with_memory (f : AgentMemory -> AgentMemory) (a : agent) : agent :=
  mkAgent (f (memory a)) (current_plan a) (fs a) (heap a) (transcript a)
    (ticks a).

Definition with_current_plan (p : option plan_ref) (a : agent) : agent :=
  mkAgent (memory a) p (fs a) (heap a) (transcript a) (ticks a).

Definition with_fs (f : gmap string string -> gmap string string) (a : agent)
  : agent :=
  mkAgent (memory a) (current_plan a) (f (fs a)) (heap a) (transcript a)
    (ticks a).

Definition with_heap
    (f : list (list (string * json)) -> list (list (string * json)))
    (a : agent) : agent :=
  mkAgent (memory a) (current_plan a) (fs a) (f (heap a)) (transcript a)
    (ticks a).

Definition with_transcript
    (f : list (prompt * string) -> list (prompt * string)) (a : agent) : agent :=
  mkAgent (memory a) (current_plan a) (fs a) (heap a) (f (transcript a))
    (ticks a).

Definition with_ticks (f : nat -> nat) (a : agent) : agent :=
  mkAgent (memory a) (current_plan a) (fs a) (heap a) (transcript a)
    (f (ticks a)).

Definition with_conversation_history
    (f : list (list (string * string)) -> list (list (string * string)))
    (m : AgentMemory) : AgentMemory :=
  mkAgentMemory (f (conversation_history m)) (task_plans m) (completed_tasks m)
    (learned_patterns m) (error_log m).

Definition with_task_plans (f : list TaskPlan -> list TaskPlan)
    (m : AgentMemory) : AgentMemory :=
  mkAgentMemory (conversation_history m) (f (task_plans m)) (completed_tasks m)
    (learned_patterns m) (error_log m).

Definition with_completed_tasks (f : list string -> list string)
    (m : AgentMemory) : AgentMemory :=
  mkAgentMemory (conversation_history m) (task_plans m) (f (completed_tasks m))
    (learned_patterns m) (error_log m).

Definition with_learned_patterns
    (f : list (json * json) -> list (json * json))
    (m : AgentMemory) : AgentMemory :=
  mkAgentMemory (conversation_history m) (task_plans m) (completed_tasks m)
    (f (learned_patterns m)) (error_log m).

Definition with_error_log
    (f : list (list (string * json)) -> list (list (string * json)))
    (m : AgentMemory) : AgentMemory :=
  mkAgentMemory (conversation_history m) (task_plans m) (completed_tasks m)
    (learned_patterns m) (f (error_log m)).

Definition set_status (s : string) (p : TaskPlan) : TaskPlan :=
  mkTaskPlan (task_id p) (description p) (steps p) s (created_at p)
    (completed_at p).

Definition set_completed_at (d : option datetime) (p : TaskPlan) : TaskPlan :=
  mkTaskPlan (task_id p) (description p) (steps p) (status p) (created_at p) d.

(** ** The monad of agent methods *)

Definition M (A : Type) : Type := agent -> (exn + A) * agent.

#[export] Instance M_ret : MRet M := fun A x a => (inr x, a).

#[export] Instance M_bind : MBind M := fun A B f c a =>
  match c a with
  | (inr x, a') => f x a'
  | (inl e, a') => (inl e, a')
  end.

Definition raise {A} (e : exn) : M A := fun a => (inl e, a).

(** [try: body  except Exception as e: handler(e)] *)
Definition try_except {A} (body : M A) (handler : exn -> M A) : M A :=
  fun a =>
    match body a with
    | (inr x, a') => (inr x, a')
    | (inl e, a') => handler e a'
    end.

Definition lift {A} (r : exn + A) : M A :=
  match r with inl e => raise e | inr x => mret x end.

Definition gets {A} (f : agent -> A) : M A := fun a => (inr (f a), a).

Definition modify (f : agent -> agent) : M unit := fun a => (inr tt, f a).

Definition modify_memory (f : AgentMemory -> AgentMemory) : M unit :=
  modify (with_memory f).

(** [for x in xs: body(x)] *)
Fixpoint for_each {A} (xs : list A) (body : A -> M unit) : M unit :=
  match xs with
  | [] => mret tt
  | x :: xs' => body x ≫= fun _ => for_each xs' body
  end.

(** [[f(x) for x in xs]] *)
Fixpoint map_M {A B} (f : A -> M B) (xs : list A) : M (list B) :=
  match xs with
  | [] => mret []
  | x :: xs' => y ← f x; ys ← map_M f xs'; mret (y :: ys)
  end.

(** [s[:n]] *)
Fixpoint str_take (n : nat) (s : string) : string :=
  match n, s with
  | S n', String c s' => String c (str_take n' s')
  | _, _ => EmptyString
  end.

(** [l[-n:]] *)
Definition last_n {A} (n : nat) (l : list A) : list A :=
  drop (length l - n)%nat l.

(** [s.lower()]: a text is the sequence of the bytes of its UTF-8
    encoding, and only the letters [A] to [Z] have a lower case that
    holds a letter of a keyword of [chat]. *)
Definition lower_char (c : ascii) : ascii :=
  let n := nat_of_ascii c in
  if (65 <=? n)%nat && (n <=? 90)%nat then ascii_of_nat (n + 32) else c.

Fixpoint str_lower (s : string) : string :=
  match s with
  | EmptyString => EmptyString
  | String c s' => String (lower_char c) (str_lower s')
  end.

(** [needle in s] *)
Fixpoint str_in (needle s : string) : bool :=
  String.prefix needle s ||
  match s with
  | EmptyString => false
  | String _ s' => str_in needle s'
  end.

(** The text with the given bytes. *)
Definition bytes (l : list nat) : string :=
  fold_right (fun n s => String (ascii_of_nat n) s) EmptyString l.

(** ** Collaborators for the closed examples

    A clock, a scripted language model and a JSON codec to run the agent
    with on concrete inputs.  The theorems do not depend on them. *)

Module Sample.

(** The double quote and the backslash. *)
Definition dq : ascii := ascii_of_nat 34.
Definition backslash : ascii := ascii_of_nat 92.

Definition quoted (q : ascii) (s : string) : string :=
  String q (s +:+ String q EmptyString).

Definition is_space (c : ascii) : bool :=
  match nat_of_ascii c with
  | 32%nat | 9%nat | 10%nat | 13%nat => true
  | _ => false
  end.

Definition digit_of (c : ascii) : option Z :=
  let n := nat_of_ascii c in
  if (48 <=? n)%nat && (n <=? 57)%nat then Some (Z.of_nat n - 48) else None.

Fixpoint skip_spaces (s : string) : string :=
  match s with
  | String c s' => if is_space c then skip_spaces s' else s
  | EmptyString => s
  end.

(** The characters up to the closing quote; no escapes. *)
Fixpoint read_string (s : string) : option (string * string) :=
  match s with
  | EmptyString => None
  | String c s' =>
      if Ascii.eqb c dq then Some (EmptyString, s')
      else if Ascii.eqb c backslash then None
      else '(t, rest) ← read_string s'; Some (String c t, rest)
  end.

Fixpoint read_digits (acc : Z) (s : string) : Z * string :=
  match s with
  | String c s' =>
      match digit_of c with
      | Some d => read_digits (10 * acc + d) s'
      | None => (acc, s)
      end
  | EmptyString => (acc, s)
  end.

Definition read_natural (s : string) : option (Z * string) :=
  match s with
  | String c _ =>
      match digit_of c with
      | Some _ => Some (read_digits 0 s)
      | None => None
      end
  | EmptyString => None
  end.

Definition read_int (s : string) : option (Z * string) :=
  match s with
  | String "-" s' => '(n, rest) ← read_natural s'; Some (- n, rest)
  | _ => read_natural s
  end.

Fixpoint strip_prefix (p s : string) : option string :=
  match p, s with
  | EmptyString, _ => Some s
  | String a p', String b s' =>
      if Ascii.eqb a b then strip_prefix p' s' else None
  | _, _ => None
  end.

Definition read_literal (s : string) : option (json * string) :=
  match strip_prefix "null" s, strip_prefix "true" s, strip_prefix "false" s with
  | Some rest, _, _ => Some (JNull, rest)
  | _, Some rest, _ => Some (JBool true, rest)
  | _, _, Some rest => Some (JBool false, rest)
  | _, _, _ => '(n, rest) ← read_int s; Some (JInt n, rest)
  end.

(** A decoder of JSON texts without escapes and fractions; [fuel] bounds
    the number of values, members and elements read. *)
Fixpoint read_value (fuel : nat) (s : string) : option (json * string) :=
  match fuel with
  | O => None
  | S fuel =>
      match skip_spaces s with
      | String "{" s1 =>
          match skip_spaces s1 with
          | String "}" rest => Some (JObj [], rest)
          | s2 => read_members fuel [] s2
          end
      | String "[" s1 =>
          match skip_spaces s1 with
          | String "]" rest => Some (JArr [], rest)
          | s2 => read_elements fuel [] s2
          end
      | String c s1 as s0 =>
          if Ascii.eqb c dq
          then '(t, rest) ← read_string s1; Some (JStr t, rest)
          else read_literal s0
      | EmptyString => None
      end
  end
with read_members (fuel : nat) (acc : list (string * json)) (s : string)
  : option (json * string) :=
  match fuel with
  | O => None
  | S fuel =>
      match skip_spaces s with
      | String c s1 =>
          if Ascii.eqb c dq then
            '(k, s2) ← read_string s1;
            match skip_spaces s2 with
            | String ":" s3 =>
                '(v, s4) ← read_value fuel s3;
                match skip_spaces s4 with
                | String "," s5 => read_members fuel (dict_set acc k v) s5
                | String "}" rest => Some (JObj (dict_set acc k v), rest)
                | _ => None
                end
            | _ => None
            end
          else None
      | EmptyString => None
      end
  end
with read_elements (fuel : nat) (acc : list json) (s : string)
  : option (json * string) :=
  match fuel with
  | O => None
  | S fuel =>
      '(v, s1) ← read_value fuel s;
      match skip_spaces s1 with
      | String "," s2 => read_elements fuel (acc ++ [v]) s2
      | String "]" rest => Some (JArr (acc ++ [v]), rest)
      | _ => None
      end
  end.

Definition json_loads (text : string) : string + json :=
  match read_value (S (String.length text)) text with
  | Some (v, rest) =>
      match skip_spaces rest with
      | EmptyString => inr v
      | _ => inl "Extra data"
      end
  | None => inl "Expecting value"
  end.

(** A printer in the style of [json.dumps], on one line. *)
Fixpoint json_dumps (v : json) : string :=
  match v with
  | JNull => "null"
  | JBool true => "true"
  | JBool false => "false"
  | JInt z => pretty z
  | JStr s => quoted dq s
  | JArr xs =>
      "[" +:+ (fix items (xs : list json) : string :=
                 match xs with
                 | [] => ""
                 | [x] => json_dumps x
                 | x :: xs' => json_dumps x +:+ ", " +:+ items xs'
                 end) xs +:+ "]"
  | JObj kvs =>
      "{" +:+ (fix members (kvs : list (string * json)) : string :=
                 match kvs with
                 | [] => ""
                 | [(k, x)] => quoted dq k +:+ ": " +:+ json_dumps x
                 | (k, x) :: kvs' =>
                     quoted dq k +:+ ": " +:+ json_dumps x +:+ ", "
                     +:+ members kvs'
                 end) kvs +:+ "}"
  end.

(** [str(v)] *)
Fixpoint py_str (v : json) : string :=
  match v with
  | JNull => "None"
  | JBool true => "True"
  | JBool false => "False"
  | JInt z => pretty z
  | JStr s => quoted "'" s
  | JArr xs =>
      "[" +:+ (fix items (xs : list json) : string :=
                 match xs with
                 | [] => ""
                 | [x] => py_str x
                 | x :: xs' => py_str x +:+ ", " +:+ items xs'
                 end) xs +:+ "]"
  | JObj kvs =>
      "{" +:+ (fix members (kvs : list (string * json)) : string :=
                 match kvs with
                 | [] => ""
                 | [(k, x)] => quoted "'" k +:+ ": " +:+ py_str x
                 | (k, x) :: kvs' =>
                     quoted "'" k +:+ ": " +:+ py_str x +:+ ", " +:+ members kvs'
                 end) kvs +:+ "}"
  end.

(** A clock that ticks once per reading, and the texts of an instant:
    the number of the instant after a letter. *)
Definition now (n : nat) : datetime := 1000 + Z.of_nat n.
Definition isoformat (d : datetime) : string := "T" +:+ pretty d.
Definition datetime_str (d : datetime) : string := "D" +:+ pretty d.
Definition timestamp_text (d : datetime) : string := pretty d +:+ ".0".

Definition datetime_validate (v : json) : option datetime :=
  match v with
  | JStr (String "D" digits) =>
      match read_int digits with
      | Some (d, EmptyString) => Some d
      | _ => None
      end
  | JInt d => Some d
  | _ => None
  end.

(** A model that gives its answers in turn, whatever it is asked. *)
Definition scripted (answers : list string) (n : nat) (p : prompt) : string :=
  nth n answers "".

Definition memory_file : string := "agent_memory.json".

(** An agent that has just been constructed, with nothing on disk. *)
Definition new_agent : agent := mkAgent fresh_memory None ∅ [] [] 0.

(** Answers of the model: a plan of one step in JSON after some prose,
    and evaluations that report success. *)
Definition plan_json : json :=
  JObj [("task_id", JStr "unique_id");
        ("description", JStr "add two numbers");
        ("steps", JArr [JStr "define function add(a,b)"])].

Definition plan_answer : string :=
  "Here is the plan: " +:+ json_dumps plan_json.

Definition success_answer : string :=
  json_dumps (JObj [("success", JBool true); ("errors", JArr []);
                    ("next_action", JStr "continue"); ("learnings", JArr [])]).

Definition caching_answer : string :=
  json_dumps (JObj [("success", JBool true); ("errors", JArr []);
                    ("next_action", JStr "continue");
                    ("learnings", JArr [JStr "use caching"])]).

Definition request : string := "write a function that adds two numbers".

(** A task of one step whose evaluation and whose retry's evaluation both
    report failure: the empty object has no [success]. *)
Definition failing_step_script : list string :=
  [plan_answer; "I defined the function."; "{}"; "I tried again."; "{}"].

(** Answers in plain prose: to the planning, to the evaluation of a step,
    to the evaluation of a retry. *)
Definition prose_plan_script : list string :=
  ["I am sorry, I cannot plan this."].

Definition prose_evaluation_script : list string :=
  [plan_answer; "I defined the function."; "The step looks fine to me."].

Definition prose_retry_script : list string :=
  [plan_answer; "I defined the function."; "{}"; "I tried again.";
   "It works now."].

(** The answers of [prose_retry_script] to the loop alone. *)
Definition prose_retry_steps : list string :=
  ["I defined the function."; "{}"; "I tried again."; "It works now."].

(** Two tasks for which the model gives the same plan. *)
Definition two_tasks_script : list string :=
  [plan_answer; "I defined the function."; success_answer;
   plan_answer; "I defined it again."; success_answer].

(** An agent in the middle of a task: a context, no plan. *)
Definition working_agent : agent :=
  mkAgent fresh_memory None ∅ [[("request", JStr request)]] [] 0.

(** An agent whose memory file is not JSON. *)
Definition corrupt_text : string := "{not json".

Definition corrupt_agent : agent :=
  mkAgent fresh_memory None {[ memory_file := corrupt_text ]} [] [] 0.

(** An agent that has met the learning once. *)
Definition seen_agent : agent :=
  mkAgent
    (mkAgentMemory [] [] []
       [(JStr "use caching",
         JObj [("count", JInt 1); ("first_seen", JStr "T1000")])] [])
    None ∅ [] [] 1.

(** A model whose every answer is the empty JSON object, and a model
    that gives one answer to every question of [chat]. *)
Definition braced (n : nat) (p : prompt) : string := "{}".

Definition answering (answer : string) (n : nat)
    (messages : list chat_message) : string :=
  answer.

(** Evaluations: one whose learning is an object, one that lists an
    error, and one that names a learning twice. *)
Definition object_learning : list (string * json) :=
  [("success", JBool true); ("errors", JArr []);
   ("next_action", JStr "continue");
   ("learnings", JArr [JObj [("pattern", JStr "use caching")]])].

Definition one_error : list (string * json) :=
  [("success", JBool false); ("errors", JArr [JStr "boom"]);
   ("next_action", JStr "retry"); ("learnings", JArr [])].

Definition repeated_learning : list (string * json) :=
  [("success", JBool true); ("errors", JArr []);
   ("next_action", JStr "continue");
   ("learnings", JArr (JStr <$> ["use caching"; "use caching"]))].

(** A question and a task for [chat], and the result of a step. *)
Definition question : string := "What is a monad?".

Definition task_message : string := "Please FIX the parser".

Definition a_result : json :=
  JObj [("step", JStr "a step"); ("response", JStr "done");
        ("timestamp", JStr "T1000"); ("success", JBool true)].

(** An agent whose conversation holds an entry without a role. *)
Definition roleless_agent : agent :=
  mkAgent (mkAgentMemory [[("content", "hello")]] [] [] [] []) None ∅ [] [] 0.

(** A memory with an entry in each of its fields. *)
Definition sample_memory : AgentMemory :=
  mkAgentMemory
    [[("role", "user"); ("content", request); ("timestamp", "T1000")]]
    [mkTaskPlan "unique_id" "add two numbers" ["define function add(a,b)"]
       "completed" 1001 (Some 1006);
     mkTaskPlan "task_1010.0" "second" ["raw answer"] "pending" 1011 None]
    ["unique_id"]
    [(JStr "use caching",
      JObj [("count", JInt 2); ("first_seen", JStr "T1002")])]
    [[("timestamp", JStr "T1003"); ("errors", JArr [JStr "boom"]);
      ("context", JObj [("step", JStr "s"); ("success", JBool true)])]].

End Sample.

(** ** The agent *)

Section Agent.

(** The language model: the answer to the [n]-th call, given its prompt. *)
Variable llm : nat -> prompt -> string.
(** The wall clock: what the [n]-th reading returns. *)
Variable now : nat -> datetime.
(** [datetime.isoformat], [str(datetime)] and the text of
    [datetime.timestamp()]. *)
Variable isoformat : datetime -> string.
Variable datetime_str : datetime -> string.
Variable timestamp_text : datetime -> string.
(** How pydantic reads a [datetime] field from a decoded value. *)
Variable datetime_validate : json -> option datetime.
(** [json.loads] (the message of the [JSONDecodeError], or the decoded
    value) and [json.dumps]. *)
Variable json_loads : string -> string + json.
Variable json_dumps : json -> string.
(** [str(v)], as an f-string renders a value. *)
Variable py_str : json -> string.
(** [self.memory_file] *)
Variable memory_file : string.

(** [await self.llm.ainvoke(messages)], then [response.content] *)
Definition llm_invoke (p : prompt) : M string := fun a =>
  let response := llm (length (transcript a)) p in
  (inr response, with_transcript (fun t => t ++ [(p, response)]) a).

(** [datetime.now()] *)
Definition datetime_now : M datetime := fun a =>
  (inr (now (ticks a)), with_ticks S a).

Definition loads (text : string) : M json :=
  match json_loads text with
  | inl msg => raise (JSONDecodeError msg)
  | inr v => mret v
  end.

(** *** Validation by pydantic *)

Definition validate_str (v : json) : option string :=
  match v with JStr s => Some s | _ => None end.

Definition validate_list {A} (f : json -> option A) (v : json)
  : option (list A) :=
  match v with JArr xs => mapM f xs | _ => None end.

Definition validate_dict (v : json) : option (list (string * json)) :=
  match v with JObj kvs => Some kvs | _ => None end.

(** [Dict[str, str]] *)
Definition validate_str_dict (v : json) : option (list (string * string)) :=
  match v with
  | JObj kvs => mapM (fun kv => pair (fst kv) <$> validate_str (snd kv)) kvs
  | _ => None
  end.

Definition validate_optional_datetime (v : json) : option (option datetime) :=
  match v with
  | JNull => Some None
  | _ => Some <$> datetime_validate v
  end.

(** A field with a default: absent, it takes the default. *)
Definition field {A} (f : json -> option A) (default : A)
    (kwargs : list (string * json)) (name : string) : option A :=
  match dict_get kwargs name with
  | Some v => f v
  | None => Some default
  end.

Definition required {A} (f : json -> option A)
    (kwargs : list (string * json)) (name : string) : option A :=
  dict_get kwargs name ≫= f.

(** [TaskPlan] from keyword arguments: [created_at] reads the clock when it is not
    given; a field of the wrong type is a [ValidationError], raised once
    every field has been looked at. *)
Definition TaskPlan_fields (kwargs : list (string * json))
    (created : option datetime) : option TaskPlan :=
  i ← required validate_str kwargs "task_id";
  d ← required validate_str kwargs "description";
  s ← required (validate_list validate_str) kwargs "steps";
  st ← field validate_str "pending" kwargs "status";
  c ← created;
  e ← field validate_optional_datetime None kwargs "completed_at";
  Some (mkTaskPlan i d s st c e).

Definition TaskPlan_init (kwargs : list (string * json)) : M TaskPlan :=
  created ← match dict_get kwargs "created_at" with
            | Some v => mret (datetime_validate v)
            | None => t ← datetime_now; mret (Some t)
            end;
  match TaskPlan_fields kwargs created with
  | Some p => mret p
  | None => raise (ValidationError "validation error for TaskPlan")
  end.

(** Unpacking keyword arguments needs a mapping. *)
Definition kwargs_of (v : json) : M (list (string * json)) :=
  match v with
  | JObj kvs => mret kvs
  | _ => raise (TypeError "argument after ** must be a mapping")
  end.

(** A [TaskPlan] nested in [AgentMemory]. *)
Definition TaskPlan_validate (v : json) : M TaskPlan :=
  match v with
  | JObj kvs => TaskPlan_init kvs
  | _ => raise (ValidationError "validation error for AgentMemory")
  end.

(** [AgentMemory] from keyword arguments *)
Definition AgentMemory_fields (kwargs : list (string * json))
    (plans : option (list TaskPlan)) : option AgentMemory :=
  h ← field (validate_list validate_str_dict) [] kwargs
        "conversation_history";
  p ← plans;
  c ← field (validate_list validate_str) [] kwargs "completed_tasks";
  l ← field validate_dict [] kwargs "learned_patterns";
  e ← field (validate_list validate_dict) [] kwargs "error_log";
  Some (mkAgentMemory h p c (prod_map JStr id <$> l) e).

Definition AgentMemory_init (kwargs : list (string * json)) : M AgentMemory :=
  plans ← match dict_get kwargs "task_plans" with
          | Some (JArr xs) => ps ← map_M TaskPlan_validate xs; mret (Some ps)
          | Some _ => mret None
          | None => mret (Some [])
          end;
  match AgentMemory_fields kwargs plans with
  | Some m => mret m
  | None => raise (ValidationError "validation error for AgentMemory")
  end.

(** *** [model_dump()] as [json.dumps(..., default=str)] writes it *)

Definition TaskPlan_dump (p : TaskPlan) : json :=
  JObj [("task_id", JStr (task_id p));
        ("description", JStr (description p));
        ("steps", JArr (JStr <$> steps p));
        ("status", JStr (status p));
        ("created_at", JStr (datetime_str (created_at p)));
        ("completed_at",
          match completed_at p with
          | Some d => JStr (datetime_str d)
          | None => JNull
          end)].

Definition AgentMemory_dump (m : AgentMemory) : json :=
  JObj [("conversation_history",
          JArr ((fun e => JObj (prod_map id JStr <$> e))
                  <$> conversation_history m));
        ("task_plans", JArr (TaskPlan_dump <$> task_plans m));
        ("completed_tasks", JArr (JStr <$> completed_tasks m));
        ("learned_patterns",
          JObj (prod_map key_text id <$> learned_patterns m));
        ("error_log", JArr (JObj <$> error_log m))].

(** *** [AgentMemory.save_to_file] and [AgentMemory.load_from_file] *)

Definition save_to_file (self : AgentMemory) (filepath : string) : M unit :=
  modify (with_fs <[filepath := json_dumps (AgentMemory_dump self)]>).

Definition load_from_file (filepath : string) : M AgentMemory :=
  files ← gets fs;
  match files !! filepath with
  | None => mret fresh_memory
  | Some data =>
      v ← loads data;
      kwargs ← kwargs_of v;
      AgentMemory_init kwargs
  end.

(** [await self.memory.save_to_file(self.memory_file)] *)
Definition save_memory : M unit :=
  m ← gets memory; save_to_file m memory_file.

(** *** Shared objects *)

(** [self.memory.task_plans.append(plan)]; the result refers to the
    appended object. *)
Definition append_plan (plan : TaskPlan) : M plan_ref :=
  plans ← gets (task_plans ∘ memory);
  _ ← modify_memory (with_task_plans (fun l => l ++ [plan]));
  mret (length plans).

(** Reading and writing through a plan reference.  A reference always
    points into [task_plans]; outside it a read finds nothing and a
    write does nothing. *)
Definition plan_at (r : plan_ref) (a : agent) : option TaskPlan :=
  task_plans (memory a) !! r.

Definition plan_update (r : plan_ref) (f : TaskPlan -> TaskPlan) : M unit :=
  modify_memory (with_task_plans (alter f r)).

(** A new [dict] object. *)
Definition alloc_dict (d : list (string * json)) : M dict_ref :=
  h ← gets heap;
  _ ← modify (with_heap (fun h => h ++ [d]));
  mret (length h).

Definition read_dict (r : dict_ref) : M (list (string * json)) :=
  gets (fun a => default [] (heap a !! r)).

(** [d[k] = v] on the object [r] refers to. *)
Definition dict_setitem (r : dict_ref) (k : string) (v : json) : M unit :=
  modify (with_heap (alter (fun d => dict_set d k v) r)).

(** *** [CodingAgent.plan_task] *)

Definition fallback_plan (task_time created : datetime)
    (user_request response : string) : TaskPlan :=
  mkTaskPlan ("task_" +:+ timestamp_text task_time)
    (str_take 100 user_request) [response] "pending" created None.

(** The result is [None] when the method falls off its end. *)
Definition plan_task (user_request : string) : M (option plan_ref) :=
  response ← llm_invoke (PlanningPrompt user_request);
  try_except
    (match re_search_braces response with
     | Some text =>
         plan_data ← loads text;
         kwargs ← kwargs_of plan_data;
         plan ← TaskPlan_init kwargs;
         r ← append_plan plan;
         _ ← save_memory;
         mret (Some r)
     | None => mret None
     end)
    (fun e =>
       task_time ← datetime_now;
       created ← datetime_now;
       r ← append_plan (fallback_plan task_time created user_request response);
       mret (Some r)).

(** *** [CodingAgent.execute_step] *)

Definition step_result (step response timestamp : string) : json :=
  JObj [("step", JStr step);
        ("response", JStr response);
        ("timestamp", JStr timestamp);
        ("success", JBool true)].

Definition assistant_entry (response timestamp : string)
  : list (string * string) :=
  [("role", "assistant"); ("content", response); ("timestamp", timestamp)].

(** The tool list that the source fetches before the call is not used. *)
Definition execute_step (step : string) (context : dict_ref) : M json :=
  history ← gets (conversation_history ∘ memory);
  ctx ← read_dict context;
  response ← llm_invoke (ExecutionPrompt step ctx (last_n 5 history));
  t ← datetime_now;
  let result := step_result step response (isoformat t) in
  t' ← datetime_now;
  _ ← modify_memory
        (with_conversation_history
           (fun h => h ++ [assistant_entry response (isoformat t')]));
  mret result.

(** *** [CodingAgent.evaluate_result] *)

Definition new_pattern (first_seen : string) : json :=
  JObj [("count", JInt 1); ("first_seen", JStr first_seen)].

(** The body of the loop over the learnings. *)
Definition record_learning (learning : json) : M unit :=
  if negb (hashable learning) then
    raise (TypeError ("unhashable type: '" +:+ type_name learning +:+ "'"))
  else
    patterns ← gets (learned_patterns ∘ memory);
    match kdict_get patterns learning with
    | None =>
        t ← datetime_now;
        modify_memory
          (with_learned_patterns
             (fun d => kdict_set d learning (new_pattern (isoformat t))))
    | Some entry =>
        count ← lift (py_getitem entry "count");
        count' ← lift (py_add1 count);
        match entry with
        | JObj kvs =>
            modify_memory
              (with_learned_patterns
                 (fun d =>
                    kdict_set d learning (JObj (dict_set kvs "count" count'))))
        | _ => mret tt
        end
    end.

Definition error_entry (timestamp : string) (errors result : json)
  : list (string * json) :=
  [("timestamp", JStr timestamp); ("errors", errors); ("context", result)].

Definition default_evaluation (e : exn) : json :=
  JObj [("success", JBool false);
        ("errors", JArr [JStr (exn_str e)]);
        ("next_action", JStr "retry");
        ("learnings", JArr [])].

(** The result is [None] when the method falls off its end. *)
Definition evaluate_result (result : json) : M (option json) :=
  response ← llm_invoke (EvaluationPrompt result);
  try_except
    (match re_search_braces response with
     | Some text =>
         evaluation ← loads text;
         learnings ← lift (py_get evaluation "learnings");
         _ ← (if truthy_opt learnings then
                value ← lift (py_getitem evaluation "learnings");
                items ← lift (py_iter value);
                for_each items record_learning
              else mret tt);
         errors ← lift (py_get evaluation "errors");
         _ ← (if truthy_opt errors then
                t ← datetime_now;
                value ← lift (py_getitem evaluation "errors");
                modify_memory
                  (with_error_log
                     (fun l => l ++ [error_entry (isoformat t) value result]))
              else mret tt);
         _ ← save_memory;
         mret (Some evaluation)
     | None => mret None
     end)
    (fun e => mret (Some (default_evaluation e))).

(** *** [CodingAgent.execute_task] *)

Definition user_entry (content timestamp : string) : list (string * string) :=
  [("role", "user"); ("content", content); ("timestamp", timestamp)].

Definition nl : string := String (ascii_of_nat 10) EmptyString.

Definition fix_prompt (errors : json) (step : string) : string :=
  nl +:+ "                The previous step failed with errors: "
     +:+ py_str errors +:+ nl
     +:+ "                Original step: " +:+ step +:+ nl
     +:+ "                Please fix the issue and retry." +:+ nl
     +:+ "                ".

(** [evaluation.get(k, default)] where [evaluation] may be [None]. *)
Definition get_or (evaluation : option json) (k : string) (default : json)
  : M json :=
  match evaluation with
  | Some v => found ← lift (py_get v k); mret (from_option id default found)
  | None => raise (AttributeError "'NoneType' object has no attribute 'get'")
  end.

Definition json_of_option (v : option json) : json :=
  from_option id JNull v.

Definition context_entry (step : string) (result : json)
    (evaluation : option json) : json :=
  JObj [("description", JStr step);
        ("result", result);
        ("evaluation", json_of_option evaluation)].

(** The body of the loop over the steps of the plan; [i] counts from 0
    and [results] is the list as it stands, returned with its additions. *)
Definition run_step (context : dict_ref) (i : nat) (step : string)
    (results : list json) : M (list json) :=
  result ← execute_step step context;
  let results := results ++ [result] in
  evaluation ← evaluate_result result;
  _ ← dict_setitem context ("step_" +:+ pretty (S i))
        (context_entry step result evaluation);
  success ← get_or evaluation "success" (JBool false);
  if negb (truthy success) then
    errors ← get_or evaluation "errors" (JArr []);
    retry_result ← execute_step (fix_prompt errors step) context;
    let results := results ++ [retry_result] in
    retry_evaluation ← evaluate_result retry_result;
    _ ← get_or retry_evaluation "success" (JBool false);
    mret results
  else mret results.

Fixpoint run_steps (context : dict_ref) (i : nat) (plan_steps : list string)
    (results : list json) : M (list json) :=
  match plan_steps with
  | [] => mret results
  | step :: rest =>
      results ← run_step context i step results;
      run_steps context (S i) rest results
  end.

Record task_result : Type := mkTaskResult {
  result_plan : option TaskPlan;
  result_results : list json;
  result_success : bool;
  result_timestamp : string
}.

Definition execute_task (user_request : string) : M task_result :=
  t ← datetime_now;
  _ ← modify_memory
        (with_conversation_history
           (fun h => h ++ [user_entry user_request (isoformat t)]));
  plan ← plan_task user_request;
  _ ← modify (with_current_plan plan);
  match plan with
  | None =>
      raise (AttributeError "'NoneType' object has no attribute 'status'")
  | Some r =>
      _ ← plan_update r (set_status "in_progress");
      context ← alloc_dict [("request", JStr user_request)];
      p ← gets (plan_at r);
      results ← run_steps context 0 (from_option steps [] p) [];
      _ ← plan_update r (set_status "completed");
      t ← datetime_now;
      _ ← plan_update r (set_completed_at (Some t));
      p ← gets (plan_at r);
      _ ← modify_memory
            (with_completed_tasks
               (fun l => l ++ from_option (fun p => [task_id p]) [] p));
      _ ← save_memory;
      p ← gets (plan_at r);
      t' ← datetime_now;
      mret (mkTaskResult p results true (isoformat t'))
  end.

(** *** [CodingAgent.chat] *)

(** The language model as [chat] asks it a question: its answer to the
    messages, which may depend on when it is asked (on the number of
    readings of the clock so far; every question is followed by two). *)
Variable llm_chat : nat -> list chat_message -> string.

Definition chat_invoke (messages : list chat_message) : M string :=
  gets (fun a => llm_chat (ticks a) messages).

Definition task_keywords : list string :=
  ["create"; "build"; "implement"; "write"; "develop"; "fix"; "debug";
   "refactor"; "test"; "deploy"; "setup"; "install"; "configure"].

Definition is_task (message : string) : bool :=
  existsb (fun keyword => str_in keyword (str_lower message)) task_keywords.

(** The two pictographs of the report, byte for byte as in the source. *)
Definition plan_mark : string :=
  bytes [195; 176; 197; 184; 226; 128; 156; 226; 128; 185]%nat.

Definition done_mark : string := bytes [195; 162; 197; 147; 226; 128; 166]%nat.

Definition task_report (plan_description : string) (plan_steps : nat)
  : string :=
  "Task completed!" +:+ nl +:+ nl
  +:+ plan_mark +:+ " Plan: " +:+ plan_description +:+ nl
  +:+ done_mark +:+ " Steps completed: " +:+ pretty plan_steps +:+ nl.

(** The message an entry of the history is sent as. *)
Definition history_message (hist : list (string * string))
  : exn + chat_message :=
  match dict_get hist "role" with
  | None => inl (KeyError "'role'")
  | Some role =>
      match dict_get hist "content" with
      | None => inl (KeyError "'content'")
      | Some content =>
          inr (if (role =? "user")%string then HumanMessage content
               else AIMessage content)
      end
  end.

Definition chat (message : string) : M string :=
  if is_task message then
    result ← execute_task message;
    match result_plan result with
    | Some p => mret (task_report (description p) (length (steps p)))
    | None => raise (TypeError "'NoneType' object is not subscriptable")
    end
  else
    history ← gets (conversation_history ∘ memory);
    recent ← map_M (fun hist => lift (history_message hist)) (last_n 3 history);
    response ← chat_invoke (HumanMessage message :: recent);
    t ← datetime_now;
    _ ← modify_memory
          (with_conversation_history
             (fun h => h ++ [user_entry message (isoformat t)]));
    t' ← datetime_now;
    _ ← modify_memory
          (with_conversation_history
             (fun h => h ++ [assistant_entry response (isoformat t')]));
    _ ← save_memory;
    mret response.

(** ** Vocabulary of the properties *)

(** The part of the agent that only [plan_task] and [execute_task] write. *)
Definition task_state (a : agent)
  : list TaskPlan * list string * option plan_ref :=
  (task_plans (memory a), completed_tasks (memory a), current_plan a).

(** What [evaluate_result] leaves as it is once it has asked the model. *)
Definition evaluation_frame (a : agent) :=
  (task_plans (memory a), completed_tasks (memory a),
   conversation_history (memory a), current_plan a, heap a, transcript a).

(** What the three writes of [execute_task] make of the plan it got. *)
Definition completed_plan (t : datetime) (p : TaskPlan) : TaskPlan :=
  set_completed_at (Some t) (set_status "completed" (set_status "in_progress" p)).

(** The answer of the model to [execute_step] called on agent [a]. *)
Definition execute_step_prompt (step : string) (context : dict_ref)
    (a : agent) : prompt :=
  ExecutionPrompt step (default [] (heap a !! context))
    (last_n 5 (conversation_history (memory a))).

Definition execute_step_response (step : string) (context : dict_ref)
    (a : agent) : string :=
  llm (length (transcript a)) (execute_step_prompt step context a).

(** The answers to [plan_task] and to [evaluate_result]. *)
Definition plan_task_response (user_request : string) (a : agent) : string :=
  llm (length (transcript a)) (PlanningPrompt user_request).

Definition evaluate_result_response (result : json) (a : agent) : string :=
  llm (length (transcript a)) (EvaluationPrompt result).

(** The agent once the model has been asked [p]. *)
Definition asked (p : prompt) (a : agent) : agent :=
  with_transcript (fun t => t ++ [(p, llm (length (transcript a)) p)]) a.

(** The key of step number [i] (from 0) in the context, the agent once
    the entry of the step is in the context, what it means for an
    evaluation to report failure, and the step of the retry. *)
Definition step_key (i : nat) : string := "step_" +:+ pretty (S i).

Definition recorded (context : dict_ref) (i : nat) (step : string)
    (result : json) (evaluation : option json) (a : agent) : agent :=
  with_heap
    (alter (fun d => dict_set d (step_key i) (context_entry step result evaluation))
       context) a.

Definition reports_failure (kvs : list (string * json)) : Prop :=
  truthy (from_option id (JBool false) (dict_get kvs "success")) = false.

Definition retry_step (kvs : list (string * json)) (step : string) : string :=
  fix_prompt (from_option id (JArr []) (dict_get kvs "errors")) step.

(** The entry of the learning [k] in [learned_patterns], and the agent
    once [k] has been recorded for the first time, or once more. *)
Definition pattern_of (k : string) (a : agent) : option json :=
  kdict_get (learned_patterns (memory a)) (JStr k).

Definition upsert_new (k : json) (first_seen : string) (a : agent) : agent :=
  with_memory
    (with_learned_patterns (fun d => kdict_set d k (new_pattern first_seen)))
    (with_ticks S a).

Definition upsert_seen (k : json) (kvs : list (string * json)) (n : Z)
    (a : agent) : agent :=
  with_memory
    (with_learned_patterns
       (fun d => kdict_set d k (JObj (dict_set kvs "count" (JInt (n + 1))))))
    a.

(** The model's answer to the evaluation of [result] holds, between its
    first opening and last closing brace, the JSON object [kvs]. *)
Definition decoded_evaluation (result : json) (a : agent)
    (kvs : list (string * json)) : Prop :=
  exists text,
    re_search_braces (evaluate_result_response result a) = Some text /\
    json_loads text = inr (JObj kvs).

(** The text [data] of a file can be parsed into the schema: it is a JSON
    object that pydantic accepts as an [AgentMemory]. *)
Definition decodes (data : string) (a : agent) : Prop :=
  exists kwargs m a',
    json_loads data = inr (JObj kwargs) /\
    AgentMemory_init kwargs a = (inr m, a').

(** The classes of the exceptions of [json.loads], of the unpacking of the
    keyword arguments and of pydantic. *)
Definition decoder_exceptions : list string :=
  ["JSONDecodeError"; "TypeError"; "ValidationError"].

(** The timestamps of a plan read back from the text [str] gives them. *)
Definition timestamps_readable (p : TaskPlan) : Prop :=
  datetime_validate (JStr (datetime_str (created_at p))) = Some (created_at p) /\
  forall d, completed_at p = Some d ->
            datetime_validate (JStr (datetime_str d)) = Some d.

(** [learned_patterns] as its type [Dict[str, Any]] declares it. *)
Definition string_keyed (d : list (json * json)) : Prop :=
  Forall (fun kv => exists s, fst kv = JStr s) d.

(** The operations on the memory, and the agents they lead to from one
    whose memory is new.  An operation that raises leaves the agent it
    had reached. *)
Inductive operation : Type :=
  | PlanTask (user_request : string)
  | ExecuteStep (step : string) (context : dict_ref)
  | EvaluateResult (result : json)
  | ExecuteTask (user_request : string).

Definition perform (o : operation) (a : agent) : agent :=
  match o with
  | PlanTask user_request => snd (plan_task user_request a)
  | ExecuteStep step context => snd (execute_step step context a)
  | EvaluateResult result => snd (evaluate_result result a)
  | ExecuteTask user_request => snd (execute_task user_request a)
  end.

Inductive reachable : agent -> Prop :=
  | reachable_fresh a : memory a = fresh_memory -> reachable a
  | reachable_perform o a : reachable a -> reachable (perform o a).

(** [p] is a completed plan with identifier [id]. *)
Definition completes (id : string) (p : TaskPlan) : Prop :=
  task_id p = id /\ status p = "completed".

(** The invariant of the memory: no more completed tasks than plans, and
    every completed task has a completed plan. *)
Definition memory_invariant (m : AgentMemory) : Prop :=
  (length (completed_tasks m) <= length (task_plans m))%nat /\
  forall id, id ∈ completed_tasks m ->
             exists p, p ∈ task_plans m /\ completes id p.

(** The same with exactly one completed plan, at one position of
    [task_plans], for every completed task. *)
Definition one_plan_invariant (m : AgentMemory) : Prop :=
  (length (completed_tasks m) <= length (task_plans m))%nat /\
  forall id, id ∈ completed_tasks m ->
    exists i, (exists p, task_plans m !! i = Some p /\ completes id p) /\
      forall j q, task_plans m !! j = Some q -> completes id q -> j = i.

(** Every answer of the model has a closing brace after an opening one. *)
Definition always_braces : Prop :=
  forall n p, re_search_braces (llm n p) <> None.

(** A computation whose results all satisfy [P]. *)
Definition ensures {A} (P : A -> Prop) (c : M A) : Prop :=
  forall a x a', c a = (inr x, a') -> P x.

(** A computation that can only return [v]. *)
Definition returns_only {A} (v : A) (c : M A) : Prop :=
  forall a x a', c a = (inr x, a') -> x = v.

(** A computation that raises only exceptions that satisfy [P]. *)
Definition raises_only {A} (P : exn -> Prop) (c : M A) : Prop :=
  forall a e a', c a = (inl e, a') -> P e.

(** A computation that never raises. *)
Definition never_raises {A} (c : M A) : Prop :=
  raises_only (fun _ => False) c.

(** A computation that, when it raises, leaves the observation [f] of
    the agent as it was. *)
Definition raising_keeps {X A} (f : agent -> X) (c : M A) : Prop :=
  forall a e a', c a = (inl e, a') -> f a' = f a.

(** The memory file holds the memory of the agent. *)
Definition saved (a : agent) : Prop :=
  fs a !! memory_file = Some (json_dumps (AgentMemory_dump (memory a))).

(** A computation that, when it returns, leaves the memory on disk. *)
Definition saves {A} (c : M A) : Prop :=
  forall a x a', c a = (inr x, a') -> saved a'.

(** What an evaluation that fails before its end has not written. *)
Definition unlogged (a : agent) := (error_log (memory a), fs a).

(** The number of questions the task methods have asked the model, and
    the length of the conversation. *)
Definition calls (a : agent) : nat := length (transcript a).

Definition turns (a : agent) : nat :=
  length (conversation_history (memory a)).





(** The last answer of the model has no closing brace after an opening
    one. *)
Definition unanswered (a : agent) : Prop :=
  exists p response,
    last (transcript a) = Some (p, response) /\
    re_search_braces response = None.

(** How often the learning [k] has been met, and a memory whose learnings
    all have their count. *)
Definition count_of (k : string) (a : agent) : Z :=
  match pattern_of k a with
  | Some (JObj kvs) =>
      match dict_get kvs "count" with
      | Some (JInt n) => n
      | _ => 0
      end
  | _ => 0
  end.

Definition patterns_counted (a : agent) : Prop :=
  forall k v, pattern_of k a = Some v ->
    exists kvs n, v = JObj kvs /\ dict_get kvs "count" = Some (JInt n).

(** An entry of the history has what [chat] reads of it. *)
Definition sendable (hist : list (string * string)) : Prop :=
  is_Some (dict_get hist "role") /\ is_Some (dict_get hist "content").

(** ** Reasoning about runs *)

Section Runs.
Context {A B : Type}.

Lemma run_bind (c : M A) (k : A -> M B) (a : agent) :
  (c ≫= k) a =
  match c a with
  | (inr x, a') => k x a'
  | (inl e, a') => (inl e, a')
  end.
Proof. reflexivity. Qed.

Lemma run_bind_inr (c : M A) (k : A -> M B) a x a' :
  c a = (inr x, a') -> (c ≫= k) a = k x a'.
Proof. intros H. rewrite run_bind, H. reflexivity. Qed.

Lemma run_bind_inl (c : M A) (k : A -> M B) a e a' :
  c a = (inl e, a') -> (c ≫= k) a = (inl e, a').
Proof. intros H. rewrite run_bind, H. reflexivity. Qed.
End Runs.

(** A computation keeps an observation [f] of the agent when the agent it
    leaves, normally or by an exception, shows the same [f]. *)
Section Frames.
Context {X : Type} (f : agent -> X).

Definition keeps {A} (c : M A) : Prop := forall a, f (snd (c a)) = f a.

Lemma keeps_ret {A} (x : A) : keeps (mret x).
Proof. intros a. reflexivity. Qed.

Lemma keeps_raise {A} (e : exn) : keeps (@raise A e).
Proof. intros a. reflexivity. Qed.

Lemma keeps_lift {A} (r : exn + A) : keeps (lift r).
Proof. destruct r; [apply keeps_raise | apply keeps_ret]. Qed.

Lemma keeps_gets {A} (g : agent -> A) : keeps (gets g).
Proof. intros a. reflexivity. Qed.

Lemma keeps_modify (g : agent -> agent) :
  (forall a, f (g a) = f a) -> keeps (modify g).
Proof. intros H a. apply H. Qed.

Lemma keeps_bind {A B} (c : M A) (k : A -> M B) :
  keeps c -> (forall x, keeps (k x)) -> keeps (c ≫= k).
Proof.
  intros Hc Hk a. rewrite run_bind. specialize (Hc a).
  destruct (c a) as [[e|x] a']; simpl in *; [exact Hc |].
  rewrite Hk. exact Hc.
Qed.

Lemma keeps_try {A} (c : M A) (h : exn -> M A) :
  keeps c -> (forall e, keeps (h e)) -> keeps (try_except c h).
Proof.
  intros Hc Hh a. unfold try_except. specialize (Hc a).
  destruct (c a) as [[e|x] a']; simpl in *; [| exact Hc].
  rewrite Hh. exact Hc.
Qed.

Lemma keeps_for_each {A} (xs : list A) (body : A -> M unit) :
  (forall x, keeps (body x)) -> keeps (for_each xs body).
Proof.
  intros Hb. induction xs as [|x xs IH]; simpl.
  - apply keeps_ret.
  - apply keeps_bind; [apply Hb | intros _; exact IH].
Qed.

Lemma keeps_map_M {A B} (g : A -> M B) (xs : list A) :
  (forall x, keeps (g x)) -> keeps (map_M g xs).
Proof.
  intros Hg. induction xs as [|x xs IH]; simpl.
  - apply keeps_ret.
  - apply keeps_bind; [apply Hg | intros y].
    apply keeps_bind; [exact IH | intros ys; apply keeps_ret].
Qed.
End Frames.

(** Breaks a [keeps] goal down along the structure of the computation. *)
Ltac keeps_step :=
  lazymatch goal with
  | |- keeps _ (mret _) => apply keeps_ret
  | |- keeps _ (raise _) => apply keeps_raise
  | |- keeps _ (lift _) => apply keeps_lift
  | |- keeps _ (gets _) => apply keeps_gets
  | |- keeps _ (_ ≫= _) => apply keeps_bind; [| intros ?]
  | |- keeps _ (try_except _ _) => apply keeps_try; [| intros ?]
  | |- keeps _ (for_each _ _) => apply keeps_for_each; intros ?
  | |- keeps _ (map_M _ _) => apply keeps_map_M; intros ?
  | |- keeps _ (modify _) => apply keeps_modify; intros ?; reflexivity
  | |- keeps _ (modify_memory _) => apply keeps_modify; intros ?; reflexivity
  | |- keeps _ (match ?x with _ => _ end) => destruct x
  | |- keeps _ (if ?x then _ else _) => destruct x
  end.

Ltac keeps_auto := repeat keeps_step.

(** ** What each method leaves untouched *)

Lemma save_memory_keeps {X} (f : agent -> X) :
  (forall g a, f (with_fs g a) = f a) -> keeps f save_memory.
Proof.
  intros H. unfold save_memory, save_to_file. keeps_step; [keeps_step |].
  apply keeps_modify. intros a. apply H.
Qed.

Lemma datetime_now_keeps {X} (f : agent -> X) :
  (forall g a, f (with_ticks g a) = f a) -> keeps f datetime_now.
Proof. intros H a. apply H. Qed.

Lemma llm_invoke_keeps {X} (f : agent -> X) p :
  (forall g a, f (with_transcript g a) = f a) -> keeps f (llm_invoke p).
Proof. intros H a. apply H. Qed.

Lemma record_learning_frame learning :
  keeps evaluation_frame (record_learning learning).
Proof.
  unfold record_learning. keeps_auto.
  all: try (apply datetime_now_keeps; reflexivity).
Qed.

(** After its question to the model, [evaluate_result] writes nothing but
    [learned_patterns], [error_log], the clock and the disk. *)
Lemma evaluate_result_frame result a :
  evaluation_frame (snd (evaluate_result result a))
  = evaluation_frame (asked (EvaluationPrompt result) a).
Proof.
  unfold evaluate_result. rewrite run_bind. cbn [llm_invoke].
  match goal with |- context [try_except ?c ?h] =>
    assert (K : keeps evaluation_frame (try_except c h)) end.
  { unfold loads. keeps_auto.
    all: try (apply datetime_now_keeps; reflexivity).
    all: try (apply save_memory_keeps; reflexivity).
    all: apply record_learning_frame. }
  apply K.
Qed.

Lemma evaluate_result_keeps result :
  keeps task_state (evaluate_result result).
Proof.
  intros a. pose proof (evaluate_result_frame result a) as K.
  unfold evaluation_frame in K. simpl in K. unfold task_state.
  congruence.
Qed.

Lemma try_except_returns {A} (c : M A) (h : exn -> M A) :
  (forall e a, exists x a', h e a = (inr x, a')) ->
  forall a, exists x a', try_except c h a = (inr x, a').
Proof.
  intros Hh a. unfold try_except. destruct (c a) as [[e|x] a']; eauto.
Qed.

(** [evaluate_result] never raises. *)
Lemma evaluate_result_returns result a :
  exists out a', evaluate_result result a = (inr out, a').
Proof.
  unfold evaluate_result. rewrite run_bind. cbn [llm_invoke].
  apply try_except_returns. intros e a'. eexists _, _. reflexivity.
Qed.

Lemma execute_step_keeps step context :
  keeps task_state (execute_step step context).
Proof.
  unfold execute_step, read_dict. keeps_auto.
  all: try (apply llm_invoke_keeps; reflexivity).
  all: apply datetime_now_keeps; reflexivity.
Qed.

Lemma get_or_keeps {X} (f : agent -> X) evaluation k d :
  keeps f (get_or evaluation k d).
Proof. unfold get_or. keeps_auto. Qed.

Lemma run_step_keeps context i step results :
  keeps task_state (run_step context i step results).
Proof.
  unfold run_step, dict_setitem. keeps_auto.
  all: first [ apply execute_step_keeps | apply evaluate_result_keeps
             | apply get_or_keeps ].
Qed.

Lemma run_steps_keeps context plan_steps : forall i results,
  keeps task_state (run_steps context i plan_steps results).
Proof.
  induction plan_steps as [|step rest IH]; intros i results; simpl.
  - apply keeps_ret.
  - apply keeps_bind; [apply run_step_keeps | intros r; apply IH].
Qed.

Lemma loads_keeps {X} (f : agent -> X) text : keeps f (loads text).
Proof. unfold loads. keeps_auto. Qed.

Lemma kwargs_of_keeps {X} (f : agent -> X) v : keeps f (kwargs_of v).
Proof. unfold kwargs_of. keeps_auto. Qed.

Lemma TaskPlan_init_keeps kwargs :
  keeps task_state (TaskPlan_init kwargs).
Proof.
  unfold TaskPlan_init. keeps_auto.
  all: apply datetime_now_keeps; reflexivity.
Qed.

(** Runs the first computation of a [bind], with what it keeps. *)
Ltac run_head H :=
  rewrite run_bind;
  lazymatch goal with
  | |- context [match ?c ?a with _ => _ end] =>
      let K := fresh "K" in
      let e := fresh "e" in
      let x := fresh "x" in
      let a' := fresh "a" in
      pose proof (H a) as K;
      destruct (c a) as [[e|x] a']; simpl in K
  end.

(** ** [plan_task] *)

(** The [except] branch: two readings of the clock, one plan appended. *)
Lemma fallback_run user_request response a :
  (task_time ← datetime_now;
   created ← datetime_now;
   r ← append_plan (fallback_plan task_time created user_request response);
   mret (Some r)) a
  = (inr (Some (length (task_plans (memory a)))),
     with_memory
       (with_task_plans
          (fun l => l ++ [fallback_plan (now (ticks a)) (now (S (ticks a)))
                            user_request response]))
       (with_ticks (fun n => S (S n)) a)).
Proof. reflexivity. Qed.

(** [plan_task] never raises; it appends one plan and returns a reference
    to it, or appends nothing and returns [None]. *)
Lemma plan_task_run user_request a :
  exists out a',
    plan_task user_request a = (inr out, a') /\
    completed_tasks (memory a') = completed_tasks (memory a) /\
    current_plan a' = current_plan a /\
    match out with
    | None => task_plans (memory a') = task_plans (memory a)
    | Some r =>
        r = length (task_plans (memory a)) /\
        exists p, task_plans (memory a') = task_plans (memory a) ++ [p]
    end.
Proof.
  unfold plan_task. rewrite run_bind. cbn [llm_invoke].
  set (response := llm _ _). set (a1 := with_transcript _ a).
  assert (K1 : task_state a1 = task_state a) by reflexivity.
  clearbody a1. unfold try_except.
  destruct (re_search_braces response) as [text|].
  2:{ eexists _, _. split; [reflexivity|].
      injection K1 as -> -> ->. repeat split. }
  assert (Hfall : forall a2, task_state a2 = task_state a ->
     exists out a',
       (task_time ← datetime_now;
        created ← datetime_now;
        r ← append_plan (fallback_plan task_time created user_request response);
        mret (Some r)) a2 = (inr out, a') /\
      completed_tasks (memory a') = completed_tasks (memory a) /\
      current_plan a' = current_plan a /\
      match out with
      | None => task_plans (memory a') = task_plans (memory a)
      | Some r =>
        r = length (task_plans (memory a)) /\
        exists p, task_plans (memory a') = task_plans (memory a) ++ [p]
      end).
  { intros a2 K2. injection K2 as Kp Kc Kr. rewrite fallback_run.
    eexists _, _. split; [reflexivity|]. simpl. rewrite Kp, Kc, Kr.
    repeat split. eauto. }
  run_head (loads_keeps task_state text).
  { apply Hfall. congruence. }
  run_head (kwargs_of_keeps task_state x).
  { apply Hfall. congruence. }
  run_head (TaskPlan_init_keeps x0).
  { apply Hfall. congruence. }
  assert (K3 : task_state a3 = task_state a) by congruence.
  injection K3 as Kp Kc Kr.
  eexists _, _. split; [reflexivity|]. simpl. rewrite Kp, Kc, Kr.
  repeat split. eauto.
Qed.

(** ** [execute_task] *)

Lemma alter_last {A} (f : A -> A) (l : list A) (x : A) :
  alter f (length l) (l ++ [x]) = l ++ [f x].
Proof.
  rewrite alter_app_r_alt by lia. by rewrite Nat.sub_diag.
Qed.

Lemma lookup_last {A} (l : list A) (x : A) : (l ++ [x]) !! length l = Some x.
Proof. by apply list_lookup_middle. Qed.

(** Every run of [execute_task], by its outcome.  An exception leaves
    [completed_tasks] as it was and has appended no plan, or one that is
    left in progress.  A normal return has appended exactly one plan, now
    completed, and its [task_id]; the memory is on disk. *)
Lemma execute_task_run user_request a :
  match execute_task user_request a with
  | (inl _, a') =>
      completed_tasks (memory a') = completed_tasks (memory a) /\
      (task_plans (memory a') = task_plans (memory a) \/
       exists p, task_plans (memory a')
                 = task_plans (memory a) ++ [set_status "in_progress" p])
  | (inr res, a') =>
      exists p,
        let q := completed_plan (now (ticks a' - 2)) p in
        task_plans (memory a') = task_plans (memory a) ++ [q] /\
        completed_tasks (memory a') = completed_tasks (memory a) ++ [task_id p] /\
        current_plan a' = Some (length (task_plans (memory a))) /\
        result_plan res = Some q /\
        result_success res = true /\
        fs a' !! memory_file = Some (json_dumps (AgentMemory_dump (memory a')))
  end.
Proof.
  unfold execute_task. rewrite run_bind. cbn [datetime_now].
  rewrite run_bind. cbn [modify_memory modify].
  set (a1 := with_memory _ _).
  assert (K1 : task_state a1 = task_state a) by reflexivity.
  clearbody a1. injection K1 as Kp Kc _.
  rewrite run_bind.
  destruct (plan_task_run user_request a1) as (out & a2 & -> & Hc & _ & Hout).
  rewrite run_bind. cbn [modify].
  destruct out as [r|]; cbn [raise].
  2:{ simpl. rewrite Hc, Hout. auto. }
  destruct Hout as (-> & p & Hp).
  rewrite run_bind. cbn [plan_update modify_memory modify].
  set (a3 := with_memory _ _).
  assert (K3 : task_state a3
               = (task_plans (memory a) ++ [set_status "in_progress" p],
                  completed_tasks (memory a),
                  Some (length (task_plans (memory a))))).
  { unfold task_state, a3. simpl.
    by rewrite Hp, alter_last, Hc, Kc, Kp. }
  rewrite Kp. clearbody a3. clear dependent a2. clear dependent a1.
  erewrite run_bind_inr by (unfold alloc_dict; reflexivity).
  erewrite run_bind_inr by (unfold gets; reflexivity).
  set (a4 := with_heap _ a3).
  assert (K4 : task_state a4 = task_state a3) by reflexivity.
  rewrite K3 in K4.
  set (context := length (heap a3)). clearbody context a4. clear dependent a3.
  assert (HH : plan_at (length (task_plans (memory a))) a4
               = Some (set_status "in_progress" p)).
  { unfold plan_at. injection K4 as -> _ _. by rewrite lookup_last. }
  rewrite HH. clear HH.
  cbn [from_option].
  pose proof (run_steps_keeps context (steps (set_status "in_progress" p))
                0 [] a4) as K5.
  rewrite run_bind.
  destruct (run_steps _ _ _ _ a4) as [[e|results] a5]; simpl in K5;
    rewrite K4 in K5; injection K5 as K5p K5c K5r.
  { split; [assumption | eauto]. }
  destruct a5 as [[h5 tp5 ct5 lp5 el5] cp5 fs5 hp5 tr5 tk5].
  simpl in K5p, K5c, K5r. subst tp5 ct5 cp5.
  unfold plan_at. simpl. rewrite !alter_last, !lookup_last. simpl.
  rewrite Nat.sub_0_r.
  exists p. repeat split. apply lookup_insert_eq.
Qed.

(** ** [execute_step] *)

Lemma execute_step_run step context a :
  let response := execute_step_response step context a in
  execute_step step context a
  = (inr (step_result step response (isoformat (now (ticks a)))),
     with_memory
       (with_conversation_history
          (fun h => h ++ [assistant_entry response
                            (isoformat (now (S (ticks a))))]))
       (with_ticks (fun n => S (S n))
          (asked (execute_step_prompt step context a) a))).
Proof. reflexivity. Qed.

(** C9.  For every step and context, [execute_step] returns a result
    whose [success] field is [True], and it appends one
    [{role: assistant, content: response, timestamp}] entry to
    [conversation_history]. *)
Theorem execute_step_result step context a :
  exists response timestamp timestamp' a',
    let result := step_result step response timestamp in
    execute_step step context a = (inr result, a') /\
    py_get result "success" = inr (Some (JBool true)) /\
    conversation_history (memory a')
      = conversation_history (memory a)
        ++ [assistant_entry response timestamp'].
Proof.
  eexists _, _, _, _. rewrite execute_step_run. repeat split.
Qed.

(** C10.  The one entry appended to [conversation_history] is the only
    change [execute_step] makes to the memory: [task_plans],
    [completed_tasks], [learned_patterns] and [error_log] are as before;
    the context of the caller (an object of the heap) is not modified and
    nothing is written to disk. *)
Theorem execute_step_frame step context a :
  exists result entry a',
    execute_step step context a = (inr result, a') /\
    conversation_history (memory a')
      = conversation_history (memory a) ++ [entry] /\
    task_plans (memory a') = task_plans (memory a) /\
    completed_tasks (memory a') = completed_tasks (memory a) /\
    learned_patterns (memory a') = learned_patterns (memory a) /\
    error_log (memory a') = error_log (memory a) /\
    heap a' = heap a /\
    fs a' = fs a /\
    current_plan a' = current_plan a.
Proof.
  eexists _, _, _. rewrite execute_step_run. repeat split.
Qed.

(** ** Answers without a JSON object *)

Lemma from_first_open_none s :
  mentions "{" s = false -> from_first_open s = None.
Proof.
  induction s as [|c s IH]; simpl; [reflexivity|].
  destruct (Ascii.eqb c "{"); simpl; [discriminate | exact IH].
Qed.

Lemma re_search_braces_none s :
  mentions "{" s = false -> re_search_braces s = None.
Proof. intros H. unfold re_search_braces. by rewrite from_first_open_none. Qed.

Lemma plan_task_no_match user_request a :
  re_search_braces (plan_task_response user_request a) = None ->
  plan_task user_request a = (inr None, asked (PlanningPrompt user_request) a).
Proof.
  intros H. unfold plan_task. rewrite run_bind. cbn [llm_invoke].
  unfold try_except. unfold plan_task_response in H. rewrite H. reflexivity.
Qed.

(** The branch the source comments as its fallback: text between braces
    that [json.loads] rejects gives the one-step plan. *)
Lemma plan_task_malformed user_request a text msg :
  let response := plan_task_response user_request a in
  re_search_braces response = Some text ->
  json_loads text = inl msg ->
  plan_task user_request a
  = (inr (Some (length (task_plans (memory a)))),
     with_memory
       (with_task_plans
          (fun l => l ++ [fallback_plan (now (ticks a)) (now (S (ticks a)))
                            user_request response]))
       (with_ticks (fun n => S (S n))
          (asked (PlanningPrompt user_request) a))).
Proof.
  intros response H Hl. unfold plan_task. rewrite run_bind. cbn [llm_invoke].
  unfold try_except. unfold response, plan_task_response in H. rewrite H.
  rewrite run_bind. unfold loads. rewrite Hl. cbn [raise].
  rewrite fallback_run. reflexivity.
Qed.

Lemma evaluate_result_no_match result a :
  re_search_braces (evaluate_result_response result a) = None ->
  evaluate_result result a = (inr None, asked (EvaluationPrompt result) a).
Proof.
  intros H. unfold evaluate_result. rewrite run_bind. cbn [llm_invoke].
  unfold try_except. unfold evaluate_result_response in H. rewrite H.
  reflexivity.
Qed.

(** Text between braces that [json.loads] rejects gives the default
    evaluation. *)
Lemma evaluate_result_malformed result a text msg :
  re_search_braces (evaluate_result_response result a) = Some text ->
  json_loads text = inl msg ->
  evaluate_result result a
  = (inr (Some (default_evaluation (JSONDecodeError msg))),
     asked (EvaluationPrompt result) a).
Proof.
  intros H Hl. unfold evaluate_result. rewrite run_bind. cbn [llm_invoke].
  unfold try_except. unfold evaluate_result_response in H. rewrite H.
  rewrite run_bind. unfold loads. rewrite Hl. reflexivity.
Qed.

Lemma returns_only_ret {A} (v : A) : returns_only v (mret v).
Proof. intros a x a' H. unfold mret, M_ret in H. by simplify_eq. Qed.

Lemma returns_only_bind {A B} (v : B) (c : M A) (k : A -> M B) :
  (forall y, returns_only v (k y)) -> returns_only v (c ≫= k).
Proof.
  intros Hk a x a'. rewrite run_bind.
  destruct (c a) as [[e|y] a1]; [discriminate | apply Hk].
Qed.

(** An evaluation that [evaluate_result] returns is a [dict]. *)
Lemma evaluate_result_dict result a evaluation a' :
  evaluate_result result a = (inr (Some evaluation), a') ->
  exists kvs, evaluation = JObj kvs.
Proof.
  assert (Hd : forall e (a1 : agent),
    (mret (Some (default_evaluation e)) : M (option json)) a1
    = (inr (Some evaluation), a') ->
    exists kvs, evaluation = JObj kvs).
  { unfold mret, M_ret, default_evaluation. intros e a1 H. simplify_eq. eauto. }
  unfold evaluate_result. rewrite run_bind. cbn [llm_invoke]. unfold try_except.
  destruct (re_search_braces _) as [text|]; [| discriminate].
  rewrite run_bind. destruct (loads text _) as [[e|v] a1]; [apply Hd|].
  destruct v; try (rewrite run_bind; apply Hd).
  match goal with |- context [let (s, a'0) := ?c ?a in _] =>
    assert (K : returns_only (Some (JObj kvs)) c)
      by (repeat (apply returns_only_bind; intros ?); apply returns_only_ret);
    specialize (K a); destruct (c a) as [[e|x] a2]; [apply Hd|]
  end.
  specialize (K _ _ eq_refl). subst x.
  intros H. simplify_eq. eauto.
Qed.

(** ** One step of the loop *)

Lemma run_step_success context i step results a result a1 kvs a2 :
  execute_step step context a = (inr result, a1) ->
  evaluate_result result a1 = (inr (Some (JObj kvs)), a2) ->
  ~ reports_failure kvs ->
  run_step context i step results a
  = (inr (results ++ [result]),
     recorded context i step result (Some (JObj kvs)) a2).
Proof.
  intros H1 H2 Hs. unfold run_step.
  rewrite (run_bind_inr _ _ _ _ _ H1), (run_bind_inr _ _ _ _ _ H2).
  erewrite run_bind_inr by reflexivity.
  erewrite run_bind_inr by reflexivity.
  unfold reports_failure in Hs.
  destruct (truthy _); [reflexivity | congruence].
Qed.

Lemma run_step_unevaluated context i step results a result a1 a2 :
  execute_step step context a = (inr result, a1) ->
  evaluate_result result a1 = (inr None, a2) ->
  run_step context i step results a
  = (inl (AttributeError "'NoneType' object has no attribute 'get'"),
     recorded context i step result None a2).
Proof.
  intros H1 H2. unfold run_step.
  rewrite (run_bind_inr _ _ _ _ _ H1), (run_bind_inr _ _ _ _ _ H2).
  erewrite run_bind_inr by reflexivity. reflexivity.
Qed.

(** A failed step whose retry is evaluated: two executions, the retry's
    result after the step's in [results], and the loop goes on from the
    agent the second evaluation leaves. *)
Lemma run_step_retry context i step results a result a1 kvs a2
    retry_result a4 kvs' a5 :
  execute_step step context a = (inr result, a1) ->
  evaluate_result result a1 = (inr (Some (JObj kvs)), a2) ->
  reports_failure kvs ->
  execute_step (retry_step kvs step) context
    (recorded context i step result (Some (JObj kvs)) a2)
    = (inr retry_result, a4) ->
  evaluate_result retry_result a4 = (inr (Some (JObj kvs')), a5) ->
  run_step context i step results a
  = (inr (results ++ [result; retry_result]), a5).
Proof.
  intros H1 H2 Hs H4 H5. unfold run_step.
  rewrite (run_bind_inr _ _ _ _ _ H1), (run_bind_inr _ _ _ _ _ H2).
  erewrite run_bind_inr by reflexivity.
  erewrite run_bind_inr by reflexivity.
  unfold reports_failure in Hs. rewrite Hs. cbn [negb].
  erewrite run_bind_inr by reflexivity.
  unfold retry_step, recorded, step_key in H4.
  rewrite (run_bind_inr _ _ _ _ _ H4), (run_bind_inr _ _ _ _ _ H5).
  erewrite run_bind_inr by reflexivity.
  by rewrite <- app_assoc.
Qed.

Lemma run_step_retry_unevaluated context i step results a result a1 kvs a2
    retry_result a4 a5 :
  execute_step step context a = (inr result, a1) ->
  evaluate_result result a1 = (inr (Some (JObj kvs)), a2) ->
  reports_failure kvs ->
  execute_step (retry_step kvs step) context
    (recorded context i step result (Some (JObj kvs)) a2)
    = (inr retry_result, a4) ->
  evaluate_result retry_result a4 = (inr None, a5) ->
  run_step context i step results a
  = (inl (AttributeError "'NoneType' object has no attribute 'get'"), a5).
Proof.
  intros H1 H2 Hs H4 H5. unfold run_step.
  rewrite (run_bind_inr _ _ _ _ _ H1), (run_bind_inr _ _ _ _ _ H2).
  erewrite run_bind_inr by reflexivity.
  erewrite run_bind_inr by reflexivity.
  unfold reports_failure in Hs. rewrite Hs. cbn [negb].
  erewrite run_bind_inr by reflexivity.
  unfold retry_step, recorded, step_key in H4.
  rewrite (run_bind_inr _ _ _ _ _ H4), (run_bind_inr _ _ _ _ _ H5).
  reflexivity.
Qed.

(** ** Learned patterns *)

Lemma dict_get_set_eq {V} (d : list (string * V)) k v :
  dict_get (dict_set d k v) k = Some v.
Proof.
  induction d as [|[k' v'] d IH]; simpl.
  - by rewrite String.eqb_refl.
  - destruct (k' =? k)%string eqn:E; simpl; rewrite E; [reflexivity | exact IH].
Qed.

Lemma dict_get_set_ne {V} (d : list (string * V)) k k' v :
  k <> k' -> dict_get (dict_set d k v) k' = dict_get d k'.
Proof.
  intros Hne. induction d as [|[k0 v0] d IH]; simpl.
  - destruct (k =? k')%string eqn:E; [| reflexivity].
    apply String.eqb_eq in E. contradiction.
  - destruct (k0 =? k)%string eqn:E; simpl.
    + apply String.eqb_eq in E. subst k0.
      destruct (k =? k')%string eqn:E'; [| reflexivity].
      apply String.eqb_eq in E'. contradiction.
    + by rewrite IH.
Qed.

Lemma kdict_get_set_eq d k v :
  key_eqb k k = true -> kdict_get (kdict_set d k v) k = Some v.
Proof.
  intros Hk. induction d as [|[k' v'] d IH]; simpl.
  - by rewrite Hk.
  - destruct (key_eqb k' k) eqn:E; simpl; rewrite E; [reflexivity | exact IH].
Qed.

Lemma key_eqb_str s : key_eqb (JStr s) (JStr s) = true.
Proof. apply String.eqb_refl. Qed.

Lemma record_learning_new k a :
  pattern_of k a = None ->
  record_learning (JStr k) a
  = (inr tt, upsert_new (JStr k) (isoformat (now (ticks a))) a).
Proof.
  intros H. unfold record_learning. cbn [hashable negb].
  erewrite run_bind_inr by reflexivity. cbn [compose].
  unfold pattern_of in H. rewrite H. reflexivity.
Qed.

Lemma record_learning_seen k a kvs n :
  pattern_of k a = Some (JObj kvs) ->
  dict_get kvs "count" = Some (JInt n) ->
  record_learning (JStr k) a = (inr tt, upsert_seen (JStr k) kvs n a).
Proof.
  intros H Hn. unfold record_learning. cbn [hashable negb].
  erewrite run_bind_inr by reflexivity. cbn [compose].
  unfold pattern_of in H. rewrite H.
  cbn [py_getitem]. rewrite Hn. reflexivity.
Qed.

(** C5.  A learning string whose key is not yet in [learned_patterns] is
    inserted with [count] 1 and [first_seen] the current time; one whose
    key is present (with an integer [count]) has its [count] incremented by
    1 and its [first_seen] left as it is. *)
Theorem record_learning_upsert k a :
  (forall v, pattern_of k a = Some v ->
     exists kvs n, v = JObj kvs /\ dict_get kvs "count" = Some (JInt n)) ->
  exists a',
    record_learning (JStr k) a = (inr tt, a') /\
    match pattern_of k a with
    | None =>
        pattern_of k a'
        = Some (JObj [("count", JInt 1);
                      ("first_seen", JStr (isoformat (now (ticks a))))])
    | Some v =>
        exists kvs n kvs',
          v = JObj kvs /\ dict_get kvs "count" = Some (JInt n) /\
          pattern_of k a' = Some (JObj kvs') /\
          dict_get kvs' "count" = Some (JInt (n + 1)) /\
          dict_get kvs' "first_seen" = dict_get kvs "first_seen"
    end.
Proof.
  intros Hwf. destruct (pattern_of k a) as [v|] eqn:E.
  - destruct (Hwf v eq_refl) as (kvs & n & -> & Hn).
    eexists. split; [by apply record_learning_seen|].
    exists kvs, n, (dict_set kvs "count" (JInt (n + 1))).
    repeat split; try assumption.
    + unfold pattern_of. simpl. by rewrite kdict_get_set_eq by apply key_eqb_str.
    + apply dict_get_set_eq.
    + by apply dict_get_set_ne.
  - eexists. split; [by apply record_learning_new|].
    unfold pattern_of. simpl. by rewrite kdict_get_set_eq by apply key_eqb_str.
Qed.

Lemma keeps_after {X} (f : agent -> X) {A B} (c : M A) (k : A -> M B) a :
  (forall x, keeps f (k x)) -> f (snd ((c ≫= k) a)) = f (snd (c a)).
Proof.
  intros Hk. rewrite run_bind.
  destruct (c a) as [[e|x] a']; simpl; [reflexivity | apply Hk].
Qed.

Lemma keeps_after_try {X} (f : agent -> X) {A} (c : M A) (h : exn -> M A) a :
  (forall e, keeps f (h e)) -> f (snd (try_except c h a)) = f (snd (c a)).
Proof.
  intros Hh. unfold try_except.
  destruct (c a) as [[e|x] a']; simpl; [apply Hh | reflexivity].
Qed.

(** The [learned_patterns] an evaluation leaves are those its loop over
    the learnings leaves, run on the agent that has just asked the model. *)
Lemma evaluate_result_patterns result a kvs ls :
  decoded_evaluation result a kvs ->
  dict_get kvs "learnings" = Some (JArr ls) ->
  learned_patterns (memory (snd (evaluate_result result a)))
  = learned_patterns
      (memory (snd (for_each ls record_learning
                      (asked (EvaluationPrompt result) a)))).
Proof.
  intros (text & Hm & Hl) Hls.
  set (f := fun a : agent => learned_patterns (memory a)).
  change (f (snd (evaluate_result result a))
          = f (snd (for_each ls record_learning
                      (asked (EvaluationPrompt result) a)))).
  unfold evaluate_result. rewrite run_bind. cbn [llm_invoke].
  fold (asked (EvaluationPrompt result) a).
  rewrite keeps_after_try by (intros e; apply keeps_ret).
  unfold evaluate_result_response in Hm. rewrite Hm.
  erewrite run_bind_inr by (unfold loads; rewrite Hl; reflexivity).
  erewrite run_bind_inr by reflexivity.
  rewrite keeps_after.
  2:{ intros _. keeps_auto.
      all: try (apply datetime_now_keeps; reflexivity).
      apply save_memory_keeps; reflexivity. }
  rewrite Hls. destruct ls as [|l ls]; [reflexivity|].
  cbn [truthy_opt truthy].
  erewrite run_bind_inr by (cbn [py_getitem]; rewrite Hls; reflexivity).
  erewrite run_bind_inr by reflexivity.
  reflexivity.
Qed.

(** Two evaluations that each emit the learning [k], new to the memory:
    its [count] is 2 and its [first_seen] is the time of the first. *)
Lemma same_learning_twice k result result' a kvs kvs' :
  pattern_of k a = None ->
  decoded_evaluation result a kvs ->
  dict_get kvs "learnings" = Some (JArr [JStr k]) ->
  let a1 := snd (evaluate_result result a) in
  decoded_evaluation result' a1 kvs' ->
  dict_get kvs' "learnings" = Some (JArr [JStr k]) ->
  pattern_of k (snd (evaluate_result result' a1))
  = Some (JObj [("count", JInt 2);
                ("first_seen", JStr (isoformat (now (ticks a))))]).
Proof.
  intros Hnew Hd Hl a1 Hd' Hl'.
  assert (H1 : pattern_of k a1
               = Some (new_pattern (isoformat (now (ticks a))))).
  { unfold pattern_of, a1. rewrite (evaluate_result_patterns _ _ _ _ Hd Hl).
    cbn [for_each]. erewrite run_bind_inr by (by apply record_learning_new).
    simpl. by rewrite kdict_get_set_eq by apply key_eqb_str. }
  unfold pattern_of. rewrite (evaluate_result_patterns _ _ _ _ Hd' Hl').
  cbn [for_each].
  erewrite run_bind_inr.
  2:{ apply record_learning_seen with (n := 1); [exact H1 | reflexivity]. }
  simpl. by rewrite kdict_get_set_eq by apply key_eqb_str.
Qed.

(** ** Loading *)

Lemma map_M_raises {A B} (f : A -> M B) (P : exn -> Prop) xs a e a' :
  (forall x a e a', f x a = (inl e, a') -> P e) ->
  map_M f xs a = (inl e, a') -> P e.
Proof.
  intros Hf. revert a. induction xs as [|x xs IH]; intros a; simpl.
  - discriminate.
  - rewrite run_bind. destruct (f x a) as [[e1|y] a1] eqn:E.
    + intros H. simplify_eq. eauto.
    + rewrite run_bind. destruct (map_M f xs a1) as [[e2|ys] a2] eqn:E2.
      * intros H. simplify_eq. eauto.
      * discriminate.
Qed.

Lemma TaskPlan_init_raises kwargs a e a' :
  TaskPlan_init kwargs a = (inl e, a') -> exn_class e = "ValidationError".
Proof.
  unfold TaskPlan_init. rewrite run_bind.
  destruct (dict_get kwargs "created_at").
  - cbn [mret M_ret]. destruct (TaskPlan_fields _ _).
    + discriminate.
    + intros H. unfold raise in H. by simplify_eq.
  - rewrite run_bind. cbn [datetime_now mret M_ret].
    destruct (TaskPlan_fields _ _).
    + discriminate.
    + intros H. unfold raise in H. by simplify_eq.
Qed.

Lemma AgentMemory_init_raises kwargs a e a' :
  AgentMemory_init kwargs a = (inl e, a') -> exn_class e = "ValidationError".
Proof.
  unfold AgentMemory_init. rewrite run_bind.
  assert (Hend : forall plans (a1 : agent),
    match AgentMemory_fields kwargs plans with
    | Some m => mret m
    | None => raise (ValidationError "validation error for AgentMemory")
    end a1 = (inl e, a') -> exn_class e = "ValidationError").
  { intros plans a1. destruct (AgentMemory_fields _ _).
    - discriminate.
    - intros H. unfold raise in H. by simplify_eq. }
  destruct (dict_get kwargs "task_plans") as [[]|]; try apply Hend.
  rewrite run_bind.
  destruct (map_M TaskPlan_validate xs a) as [[e1|ps] a1] eqn:E.
  - intros H. simplify_eq.
    eapply (map_M_raises _ (fun e => exn_class e = "ValidationError"));
      [| exact E].
    intros x a0 e0 a0'. unfold TaskPlan_validate.
    destruct x; try (intros H; unfold raise in H; by simplify_eq).
    apply TaskPlan_init_raises.
  - apply Hend.
Qed.

(** C6, as the code has it.  [load_from_file] returns a new, empty memory
    when there is no file; when there is one it returns a memory if the
    text can be parsed into the schema and otherwise raises the exception
    of the decoder ([JSONDecodeError], [TypeError] or [ValidationError]). *)
Theorem load_from_file_outcome filepath a :
  match fs a !! filepath with
  | None => load_from_file filepath a = (inr fresh_memory, a)
  | Some data =>
      (decodes data a ->
       exists m a', load_from_file filepath a = (inr m, a')) /\
      (~ decodes data a ->
       exists e a', load_from_file filepath a = (inl e, a') /\
                    exn_class e ∈ decoder_exceptions)
  end.
Proof.
  unfold load_from_file. erewrite run_bind_inr by reflexivity.
  destruct (fs a !! filepath) as [data|]; [| reflexivity].
  unfold decodes, decoder_exceptions, loads. split.
  - intros (kwargs & m & a' & Hl & Hi). rewrite Hl.
    erewrite run_bind_inr by reflexivity.
    erewrite run_bind_inr by reflexivity. eauto.
  - intros Hn. destruct (json_loads data) as [msg|v].
    + eexists _, _. split; [reflexivity|]. set_solver.
    + erewrite run_bind_inr by reflexivity.
      destruct v; try (eexists _, _; split; [reflexivity | set_solver]).
      erewrite run_bind_inr by reflexivity.
      destruct (AgentMemory_init kvs a) as [[e|m] a'] eqn:E.
      * eexists _, _. split; [reflexivity|].
        rewrite (AgentMemory_init_raises _ _ _ _ E). set_solver.
      * exfalso. apply Hn. eauto 10.
Qed.

(** ** Saving, then loading *)

Lemma validate_strings (l : list string) :
  mapM validate_str (JStr <$> l) = Some l.
Proof. by apply mapM_fmap_Some. Qed.

Lemma validate_str_dict_dump (e : list (string * string)) :
  validate_str_dict (JObj (prod_map id JStr <$> e)) = Some e.
Proof.
  unfold validate_str_dict.
  apply (mapM_fmap_Some _ (prod_map id JStr)). by intros [k v].
Qed.

Lemma validate_history (h : list (list (string * string))) :
  mapM validate_str_dict ((fun e => JObj (prod_map id JStr <$> e)) <$> h)
  = Some h.
Proof. apply mapM_fmap_Some. apply validate_str_dict_dump. Qed.

Lemma validate_dicts (l : list (list (string * json))) :
  mapM validate_dict (JObj <$> l) = Some l.
Proof. by apply mapM_fmap_Some. Qed.

Lemma string_keyed_dump (d : list (json * json)) :
  string_keyed d -> prod_map JStr id <$> (prod_map key_text id <$> d) = d.
Proof.
  induction 1 as [|[k v] d [s Hs] _ IH]; [reflexivity|].
  simpl in Hs. subst k. rewrite !fmap_cons, IH. reflexivity.
Qed.

Lemma TaskPlan_validate_dump p a :
  timestamps_readable p ->
  TaskPlan_validate (TaskPlan_dump p) a = (inr p, a).
Proof.
  intros [Hc Hd]. destruct p as [i d s st c e]. simpl in *.
  unfold TaskPlan_validate, TaskPlan_dump, TaskPlan_init. simpl.
  rewrite run_bind. cbn [mret M_ret].
  unfold TaskPlan_fields, required, field. simpl.
  rewrite validate_strings. simpl. rewrite Hc. simpl.
  destruct e as [t|]; simpl; [rewrite (Hd t eq_refl)|]; reflexivity.
Qed.

Lemma TaskPlans_validate_dump ps a :
  Forall timestamps_readable ps ->
  map_M TaskPlan_validate (TaskPlan_dump <$> ps) a = (inr ps, a).
Proof.
  induction 1 as [|p ps Hp _ IH]; [reflexivity|].
  rewrite fmap_cons. cbn [map_M].
  erewrite run_bind_inr by (by apply TaskPlan_validate_dump).
  erewrite run_bind_inr by exact IH. reflexivity.
Qed.

Lemma AgentMemory_init_dump m kvs a :
  AgentMemory_dump m = JObj kvs ->
  Forall timestamps_readable (task_plans m) ->
  string_keyed (learned_patterns m) ->
  AgentMemory_init kvs a = (inr m, a).
Proof.
  intros Hkvs Ht Hk. injection Hkvs as <-.
  destruct m as [h ps c l e]. simpl in *.
  unfold AgentMemory_init. simpl.
  erewrite run_bind_inr.
  2:{ erewrite run_bind_inr by (by apply TaskPlans_validate_dump). reflexivity. }
  unfold AgentMemory_fields, field. simpl.
  rewrite validate_history. simpl. rewrite validate_strings. simpl.
  rewrite validate_dicts. simpl. by rewrite string_keyed_dump.
Qed.

(** C7.  Saving a memory and loading the file again gives the memory
    back, provided the text the JSON library wrote reads back as the
    document written and the timestamps read back from their text. *)
Theorem save_load_roundtrip m filepath a :
  json_loads (json_dumps (AgentMemory_dump m)) = inr (AgentMemory_dump m) ->
  Forall timestamps_readable (task_plans m) ->
  string_keyed (learned_patterns m) ->
  exists a',
    (save_to_file m filepath ≫= fun _ => load_from_file filepath) a
    = (inr m, a').
Proof.
  intros Hcodec Ht Hk.
  erewrite run_bind_inr by reflexivity.
  unfold load_from_file. erewrite run_bind_inr by reflexivity.
  simpl. rewrite lookup_insert_eq.
  erewrite run_bind_inr by (unfold loads; rewrite Hcodec; reflexivity).
  erewrite run_bind_inr by reflexivity.
  eexists. by apply AgentMemory_init_dump.
Qed.

(** ** The invariant of the memory *)

Lemma invariant_grows m m' extra :
  completed_tasks m' = completed_tasks m ->
  task_plans m' = task_plans m ++ extra ->
  memory_invariant m -> memory_invariant m'.
Proof.
  intros Hc Hp [Hlen Hex]. split.
  - rewrite Hc, Hp, length_app. lia.
  - intros id Hid. rewrite Hc in Hid. destruct (Hex id Hid) as (p & Hin & Hcp).
    exists p. split; [| exact Hcp]. rewrite Hp. set_solver.
Qed.

Lemma invariant_keeps m m' :
  completed_tasks m' = completed_tasks m ->
  task_plans m' = task_plans m ->
  memory_invariant m -> memory_invariant m'.
Proof.
  intros Hc Hp. apply (invariant_grows m m' []); [exact Hc|].
  by rewrite app_nil_r.
Qed.

Lemma invariant_completes m m' t p :
  completed_tasks m' = completed_tasks m ++ [task_id p] ->
  task_plans m' = task_plans m ++ [completed_plan t p] ->
  memory_invariant m -> memory_invariant m'.
Proof.
  intros Hc Hp [Hlen Hex]. split.
  - rewrite Hc, Hp, !length_app. simpl. lia.
  - intros id Hid. rewrite Hc in Hid. rewrite Hp.
    apply elem_of_app in Hid as [Hid|Hid].
    + destruct (Hex id Hid) as (q & Hin & Hq). exists q.
      split; [set_solver | exact Hq].
    + apply list_elem_of_singleton in Hid. subst id.
      exists (completed_plan t p). split; [set_solver|]. by split.
Qed.

(** C8, as the code has it.  In every memory reachable through the
    operations, [completed_tasks] is no longer than [task_plans], and
    every [task_id] in [completed_tasks] is that of at least one plan of
    [task_plans] whose status is completed. *)
Theorem reachable_invariant a :
  reachable a -> memory_invariant (memory a).
Proof.
  induction 1 as [a Hfresh | o a _ IH].
  - rewrite Hfresh. split; [simpl; lia|]. intros id Hid. simpl in Hid.
    set_solver.
  - destruct o as [req | step context | result | req]; simpl.
    + destruct (plan_task_run req a) as (out & a' & -> & Hc & _ & Hout). simpl.
      destruct out as [r|].
      * destruct Hout as (_ & p & Hp). by eapply invariant_grows.
      * by eapply invariant_keeps.
    + eapply invariant_keeps; [reflexivity | reflexivity | exact IH].
    + pose proof (evaluate_result_keeps result a) as K.
      unfold task_state in K.
      eapply invariant_keeps; [| | exact IH]; congruence.
    + pose proof (execute_task_run req a) as K.
      destruct (execute_task req a) as [[e|res] a']; simpl.
      * destruct K as (Kc & [Kp | (p & Kp)]).
        -- by eapply invariant_keeps.
        -- by eapply invariant_grows.
      * destruct K as (p & Kp & Kc & _). by eapply invariant_completes.
Qed.

(** ** Completed tasks *)

(** C1.  When [execute_task] has attempted every step of its plan, that
    is when it returns, the plan has status completed and [completed_at]
    the time read then, its [task_id] has been appended to
    [completed_tasks], once, and the result has [success] true,
    whatever the evaluations of the steps reported. *)
Theorem execute_task_completes user_request a res a' :
  execute_task user_request a = (inr res, a') ->
  exists p,
    result_plan res = Some p /\
    status p = "completed" /\
    completed_at p = Some (now (ticks a' - 2)) /\
    task_plans (memory a') = task_plans (memory a) ++ [p] /\
    completed_tasks (memory a') = completed_tasks (memory a) ++ [task_id p] /\
    result_success res = true.
Proof.
  intros H. pose proof (execute_task_run user_request a) as K.
  rewrite H in K. cbv zeta in K.
  destruct K as (p & Kp & Kc & _ & Kr & Ks & _).
  exists (completed_plan (now (ticks a' - 2)) p). repeat split; assumption.
Qed.

Lemma ensures_ret {A} (P : A -> Prop) (v : A) : P v -> ensures P (mret v).
Proof. intros Hv a x a' H. unfold mret, M_ret in H. by simplify_eq. Qed.

Lemma ensures_bind {A B} (P : B -> Prop) (c : M A) (k : A -> M B) :
  (forall y, ensures P (k y)) -> ensures P (c ≫= k).
Proof.
  intros Hk a x a'. rewrite run_bind.
  destruct (c a) as [[e|y] a1]; [discriminate | apply Hk].
Qed.

Lemma plan_task_some user_request a :
  re_search_braces (plan_task_response user_request a) <> None ->
  exists r a', plan_task user_request a = (inr (Some r), a').
Proof.
  intros H. unfold plan_task. rewrite run_bind. cbn [llm_invoke].
  unfold plan_task_response in H.
  destruct (re_search_braces _) as [text|]; [| contradiction].
  unfold try_except.
  match goal with |- context [let (s, a'0) := ?c ?a in _] =>
    assert (K : ensures is_Some c)
      by (repeat (apply ensures_bind; intros ?); by apply ensures_ret);
    specialize (K a); destruct (c a) as [[e|x] a2]
  end.
  - rewrite fallback_run. eauto.
  - destruct (K _ _ eq_refl) as [r ->]. eauto.
Qed.

Lemma evaluate_result_some result a :
  re_search_braces (evaluate_result_response result a) <> None ->
  exists kvs a', evaluate_result result a = (inr (Some (JObj kvs)), a').
Proof.
  intros H. destruct (evaluate_result_returns result a) as (out & a' & E).
  destruct out as [ev|].
  - destruct (evaluate_result_dict _ _ _ _ E) as [kvs ->]. eauto.
  - exfalso. revert E. unfold evaluate_result. rewrite run_bind.
    cbn [llm_invoke]. unfold evaluate_result_response in H.
    destruct (re_search_braces _) as [text|]; [| contradiction].
    unfold try_except.
    match goal with |- context [let (s, a'0) := ?c ?a in _] =>
      destruct (c a) as [[e|x] a2] eqn:Ec
    end; [discriminate|].
    intros Hx. simplify_eq.
    revert Ec.
    rewrite run_bind. destruct (loads text _) as [[e|v] a3]; [discriminate|].
    match goal with |- ?c ?a = _ -> _ =>
      assert (K : returns_only (Some v) c)
        by (repeat (apply returns_only_bind; intros ?); apply returns_only_ret);
      intros Ec; specialize (K _ _ _ Ec); discriminate
    end.
Qed.

Lemma execute_step_returns step context a :
  exists result a', execute_step step context a = (inr result, a').
Proof. eexists _, _. apply execute_step_run. Qed.

Lemma run_step_returns context i step results a :
  always_braces ->
  exists results' a', run_step context i step results a = (inr results', a').
Proof.
  intros Hb.
  destruct (execute_step_returns step context a) as (result & a1 & H1).
  destruct (evaluate_result_some result a1 (Hb _ _)) as (kvs & a2 & H2).
  destruct (truthy (from_option id (JBool false) (dict_get kvs "success")))
    eqn:Es.
  - eexists _, _. eapply run_step_success; [exact H1 | exact H2 |].
    unfold reports_failure. congruence.
  - destruct (execute_step_returns (retry_step kvs step) context
                (recorded context i step result (Some (JObj kvs)) a2))
      as (retry_result & a4 & H4).
    destruct (evaluate_result_some retry_result a4 (Hb _ _))
      as (kvs' & a5 & H5).
    eexists _, _.
    eapply run_step_retry; [exact H1 | exact H2 | exact Es | exact H4 | exact H5].
Qed.

Lemma run_steps_returns context plan_steps : forall i results a,
  always_braces ->
  exists results' a',
    run_steps context i plan_steps results a = (inr results', a').
Proof.
  induction plan_steps as [|step rest IH]; intros i results a Hb; simpl.
  - eexists _, _. reflexivity.
  - destruct (run_step_returns context i step results a Hb) as (rs & a1 & H1).
    rewrite (run_bind_inr _ _ _ _ _ H1). by apply IH.
Qed.

(** [execute_task] does attempt every step and return when every answer
    of the model has its braces, whatever stands between them. *)
Lemma execute_task_returns user_request a :
  always_braces ->
  exists res a', execute_task user_request a = (inr res, a').
Proof.
  intros Hb. unfold execute_task.
  erewrite run_bind_inr by reflexivity.
  erewrite run_bind_inr by reflexivity.
  set (a1 := with_memory _ (with_ticks S a)).
  destruct (plan_task_some user_request a1 (Hb _ _)) as (r & a2 & H2).
  rewrite (run_bind_inr _ _ _ _ _ H2).
  erewrite run_bind_inr by reflexivity.
  erewrite run_bind_inr by reflexivity.
  erewrite run_bind_inr by reflexivity.
  erewrite run_bind_inr by reflexivity.
  match goal with |- context [mbind _ (run_steps ?c ?i ?s ?rs) ?a3] =>
    destruct (run_steps_returns c s i rs a3 Hb) as (results & a4 & H4)
  end.
  rewrite (run_bind_inr _ _ _ _ _ H4).
  eexists _, _. reflexivity.
Qed.

(** ** Answers in plain prose *)

(** C2, where the code departs from it.  On an answer without an opening
    brace [plan_task] returns [None] and appends no plan: the fallback
    plan is built in the [except] branch only. *)
Theorem plan_task_without_json user_request a :
  mentions "{" (plan_task_response user_request a) = false ->
  exists a',
    plan_task user_request a = (inr None, a') /\
    task_plans (memory a') = task_plans (memory a).
Proof.
  intros H. apply re_search_braces_none in H.
  rewrite (plan_task_no_match _ _ H). eexists. split; reflexivity.
Qed.

(** [execute_task] then fails on [plan.status]. *)
Lemma execute_task_without_plan user_request a :
  mentions "{" (plan_task_response user_request a) = false ->
  fst (execute_task user_request a)
  = inl (AttributeError "'NoneType' object has no attribute 'status'").
Proof.
  intros H. apply re_search_braces_none in H. unfold execute_task.
  erewrite run_bind_inr by reflexivity.
  erewrite run_bind_inr by reflexivity.
  erewrite run_bind_inr by (by apply plan_task_no_match).
  reflexivity.
Qed.

(** C3, where the code departs from it.  On an answer without an opening
    brace [evaluate_result] returns [None], not the default evaluation,
    and leaves the memory as it is. *)
Theorem evaluate_result_without_json result a :
  mentions "{" (evaluate_result_response result a) = false ->
  exists a',
    evaluate_result result a = (inr None, a') /\
    memory a' = memory a.
Proof.
  intros H. apply re_search_braces_none in H.
  rewrite (evaluate_result_no_match _ _ H). eexists. split; reflexivity.
Qed.

(** C4, where the code departs from it.  A step whose evaluation reports
    failure is executed a second time; when the answer to the evaluation
    of the retry has no opening brace, the loop raises instead of going on
    to the steps that remain. *)
Theorem retry_without_evaluation_aborts context i step rest results a
    result a1 kvs a2 retry_result a4 :
  execute_step step context a = (inr result, a1) ->
  evaluate_result result a1 = (inr (Some (JObj kvs)), a2) ->
  reports_failure kvs ->
  execute_step (retry_step kvs step) context
    (recorded context i step result (Some (JObj kvs)) a2)
    = (inr retry_result, a4) ->
  mentions "{" (evaluate_result_response retry_result a4) = false ->
  run_steps context i (step :: rest) results a
  = (inl (AttributeError "'NoneType' object has no attribute 'get'"),
     asked (EvaluationPrompt retry_result) a4).
Proof.
  intros H1 H2 Hs H4 H5. apply re_search_braces_none in H5.
  apply evaluate_result_no_match in H5. cbn [run_steps].
  erewrite run_bind_inl; [reflexivity|].
  by eapply run_step_retry_unevaluated.
Qed.

(** ** Further properties *)

(** *** The search for a JSON object *)

Lemma str_app_nil s : "" +:+ s = s.
Proof. reflexivity. Qed.

Lemma str_app_cons c s t : String c s +:+ t = String c (s +:+ t).
Proof. reflexivity. Qed.

Lemma from_first_open_spec s rest :
  from_first_open s = Some rest <->
  exists pre, s = pre +:+ "{" +:+ rest /\ mentions "{" pre = false.
Proof.
  induction s as [|c s IH]; simpl.
  - split; [discriminate|]. intros ([|c pre] & H & _); discriminate.
  - destruct (Ascii.eqb c "{") eqn:E.
    + apply Ascii.eqb_eq in E. subst c. split.
      * intros [= ->]. by exists "".
      * intros ([|c pre] & H & Hm);
          rewrite ?str_app_cons, ?str_app_nil in H; simpl in *.
        -- by injection H as ->.
        -- injection H as <- _. simpl in Hm. discriminate.
    + rewrite IH. split.
      * intros (pre & -> & Hm). exists (String c pre). simpl. by rewrite E.
      * intros ([|c' pre] & H & Hm);
          rewrite ?str_app_cons, ?str_app_nil in H; simpl in *.
        -- injection H as -> _. simpl in E. discriminate.
        -- injection H as <- ->. rewrite E in Hm. simpl in Hm. eauto.
Qed.

Lemma upto_last_close_none s :
  upto_last_close s = None <-> mentions "}" s = false.
Proof.
  induction s as [|c s IH]; simpl; [done|].
  destruct (upto_last_close s) as [t|].
  - split; [discriminate|]. intros H. apply orb_false_iff in H as [_ H].
    apply IH in H. discriminate.
  - destruct (Ascii.eqb c "}"); simpl; [done|]. by rewrite <- IH.
Qed.

Lemma upto_last_close_spec s m :
  upto_last_close s = Some m <->
  exists body post,
    s = body +:+ "}" +:+ post /\ m = body +:+ "}" /\
    mentions "}" post = false.
Proof.
  split.
  - revert m. induction s as [|c s IH]; intros m; simpl; [discriminate|].
    destruct (upto_last_close s) as [t|] eqn:Et.
    + intros [= <-]. destruct (IH t eq_refl) as (body & post & -> & -> & Hp).
      by exists (String c body), post.
    + apply upto_last_close_none in Et.
      destruct (Ascii.eqb c "}") eqn:E; [| discriminate].
      apply Ascii.eqb_eq in E. subst c. intros [= <-]. by exists "", s.
  - intros (body & post & -> & -> & Hp).
    induction body as [|c body IH].
    + change (upto_last_close (String "}" post) = Some "}"). simpl.
      apply upto_last_close_none in Hp. by rewrite Hp.
    + change (upto_last_close (String c (body +:+ "}" +:+ post))
              = Some (String c (body +:+ "}"))).
      simpl. by rewrite IH.
Qed.

(** X1.  What [re.search] with the pattern of an opening brace, anything,
    a closing brace finds in a text: the part from the first opening
    brace to the last closing brace after it, and nothing when no closing
    brace follows the first opening one. *)
Theorem re_search_braces_spec text m :
  re_search_braces text = Some m <->
  exists pre body post,
    text = pre +:+ "{" +:+ body +:+ "}" +:+ post /\
    mentions "{" pre = false /\
    mentions "}" post = false /\
    m = "{" +:+ body +:+ "}".
Proof.
  unfold re_search_braces. split.
  - destruct (from_first_open text) as [rest|] eqn:E; [| discriminate].
    apply from_first_open_spec in E as (pre & -> & Hpre).
    destruct (upto_last_close rest) as [t|] eqn:Et; [| discriminate].
    apply upto_last_close_spec in Et as (body & post & -> & -> & Hpost).
    intros [= <-]. by exists pre, body, post.
  - intros (pre & body & post & -> & Hpre & Hpost & ->).
    assert (from_first_open (pre +:+ "{" +:+ body +:+ "}" +:+ post)
            = Some (body +:+ "}" +:+ post)) as ->
      by (apply from_first_open_spec; eauto).
    assert (upto_last_close (body +:+ "}" +:+ post) = Some (body +:+ "}")) as ->
      by (apply upto_last_close_spec; eauto).
    reflexivity.
Qed.

(** *** The keywords of a task *)

Lemma prefix_spec p s :
  String.prefix p s = true <-> exists t, s = p +:+ t.
Proof.
  revert s. induction p as [|c p IH]; intros s.
  - split; [intros _; exists s; reflexivity | by destruct s].
  - destruct s as [|c' s]; simpl.
    + split; [discriminate|]. intros (t & H). discriminate.
    + destruct (ascii_dec c c') as [->|Hne].
      * rewrite IH. split.
        -- intros (t & ->). exists t. reflexivity.
        -- intros (t & H). rewrite str_app_cons in H. injection H as ->.
           exists t. reflexivity.
      * split; [discriminate|]. intros (t & H). rewrite str_app_cons in H.
        injection H as <- _. done.
Qed.

Lemma str_in_spec needle s :
  str_in needle s = true <-> exists pre post, s = pre +:+ needle +:+ post.
Proof.
  induction s as [|c s IH]; cbn [str_in].
  - rewrite orb_false_r, prefix_spec. split.
    + intros (t & H). exists "", t. exact H.
    + intros ([|c pre] & post & H); [exists post; exact H | discriminate].
  - rewrite orb_true_iff, prefix_spec, IH. split.
    + intros [(t & H)|(pre & post & ->)]; [exists "", t; exact H|].
      exists (String c pre), post. reflexivity.
    + intros ([|c' pre] & post & H).
      * left. exists post. exact H.
      * right. rewrite str_app_cons in H. injection H as <- ->.
        exists pre, post. reflexivity.
Qed.

Lemma str_lower_app a b : str_lower (a +:+ b) = str_lower a +:+ str_lower b.
Proof.
  induction a as [|c a IH]; [reflexivity|].
  change (String (lower_char c) (str_lower (a +:+ b))
          = String (lower_char c) (str_lower a +:+ str_lower b)).
  by rewrite IH.
Qed.

Lemma str_lower_split m x y :
  str_lower m = x +:+ y ->
  exists a b, m = a +:+ b /\ str_lower a = x /\ str_lower b = y.
Proof.
  revert m. induction x as [|c x IH]; intros m H.
  - exists "", m. done.
  - destruct m as [|c' m]; [discriminate|].
    change (String (lower_char c') (str_lower m) = String c (x +:+ y)) in H.
    injection H as <- H. destruct (IH m H) as (a & b & -> & <- & <-).
    exists (String c' a), b. done.
Qed.

(** X2.  [chat] takes a message for a task exactly when, in whatever
    letter case, one of the thirteen keywords occurs somewhere in it,
    also inside a longer word. *)
Theorem is_task_spec message :
  is_task message = true <->
  exists pre word post,
    message = pre +:+ word +:+ post /\ str_lower word ∈ task_keywords.
Proof.
  unfold is_task. rewrite existsb_exists. split.
  - intros (keyword & Hin & H). apply str_in_spec in H as (x & y & H).
    apply str_lower_split in H as (pre & rest & -> & _ & H).
    apply str_lower_split in H as (word & post & -> & <- & _).
    exists pre, word, post. split; [reflexivity|]. by apply list_elem_of_In.
  - intros (pre & word & post & -> & Hin). exists (str_lower word).
    split; [by apply list_elem_of_In|].
    apply str_in_spec. exists (str_lower pre), (str_lower post).
    by rewrite !str_lower_app.
Qed.

(** *** [plan_task], whatever the model answers *)







(** *** Exceptions, and what is on disk *)

Lemma raises_only_ret {A} (P : exn -> Prop) (x : A) : raises_only P (mret x).
Proof. intros a e a' H. discriminate. Qed.

Lemma raises_only_modify (P : exn -> Prop) g : raises_only P (modify g).
Proof. intros a e a' H. discriminate. Qed.

Lemma raises_only_bind {A B} (P : exn -> Prop) (c : M A) (k : A -> M B) :
  raises_only P c -> (forall x, raises_only P (k x)) ->
  raises_only P (c ≫= k).
Proof.
  intros Hc Hk a e a'. rewrite run_bind.
  destruct (c a) as [[e1|x] a1] eqn:E.
  - intros H. simplify_eq. eauto.
  - apply Hk.
Qed.

Lemma save_memory_never_raises : never_raises save_memory.
Proof. intros a e a' H. discriminate. Qed.

Lemma raising_keeps_never {X A} (f : agent -> X) (c : M A) :
  never_raises c -> raising_keeps f c.
Proof. intros N a e a' H. destruct (N _ _ _ H). Qed.

Lemma raising_keeps_bind {X A B} (f : agent -> X) (c : M A) (k : A -> M B) :
  keeps f c -> (forall x, raising_keeps f (k x)) ->
  raising_keeps f (c ≫= k).
Proof.
  intros Hc Hk a e a'. rewrite run_bind. specialize (Hc a).
  destruct (c a) as [[e1|x] a1] eqn:E; simpl in Hc.
  - intros H. by simplify_eq.
  - intros H. rewrite <- Hc. by eapply Hk.
Qed.

Lemma raising_keeps_then {X A B} (f : agent -> X) (c : M A) (k : A -> M B) :
  raising_keeps f c -> (forall x, never_raises (k x)) ->
  raising_keeps f (c ≫= k).
Proof.
  intros Hc Hk a e a'. rewrite run_bind.
  destruct (c a) as [[e1|x] a1] eqn:E.
  - intros H. simplify_eq. by eapply Hc.
  - intros H. destruct (Hk _ _ _ _ H).
Qed.

Lemma saves_bind {A B} (c : M A) (k : A -> M B) :
  (forall x, saves (k x)) -> saves (c ≫= k).
Proof.
  intros Hk a x a'. rewrite run_bind.
  destruct (c a) as [[e|y] a1]; [discriminate | apply Hk].
Qed.

Lemma saves_save {A} (x : A) : saves (save_memory ≫= fun _ => mret x).
Proof.
  intros a y a' H. unfold save_memory, save_to_file in H.
  cbv [mbind M_bind gets modify mret M_ret] in H. simplify_eq.
  unfold saved. simpl. apply lookup_insert_eq.
Qed.

Lemma record_learning_unlogged learning :
  keeps unlogged (record_learning learning).
Proof.
  unfold record_learning. keeps_auto.
  all: try (apply datetime_now_keeps; reflexivity).
Qed.

(** *** [evaluate_result], whatever the model answers *)

(** X4.  [evaluate_result] never raises, and once it has asked the model
    it writes nothing of the agent but [learned_patterns], [error_log],
    the file and the clock.  It returns nothing, leaving memory and file
    as they were, exactly when the answer has no closing brace after an
    opening one.  Otherwise it returns a [dict]: the JSON object of the
    answer, and then the memory is on disk, or the default evaluation,
    and then neither [error_log] nor the file has been written. *)
Theorem evaluate_result_outcome result a :
  exists out a',
    evaluate_result result a = (inr out, a') /\
    evaluation_frame a'
      = evaluation_frame (asked (EvaluationPrompt result) a) /\
    match out, re_search_braces (evaluate_result_response result a) with
    | None, None => memory a' = memory a /\ fs a' = fs a
    | Some evaluation, Some text =>
        exists kvs,
          evaluation = JObj kvs /\
          (json_loads text = inr (JObj kvs) /\ saved a' \/
           (exists e, evaluation = default_evaluation e) /\
           unlogged a' = unlogged a)
    | _, _ => False
    end.
Proof.
  pose proof (evaluate_result_frame result a) as Kf. revert Kf.
  unfold evaluate_result. rewrite run_bind. cbn [llm_invoke].
  set (a1 := with_transcript _ a).
  change (asked (EvaluationPrompt result) a) with a1.
  change (llm _ _) with (evaluate_result_response result a).
  assert (K1 : unlogged a1 = unlogged a) by reflexivity.
  assert (K1' : memory a1 = memory a /\ fs a1 = fs a) by done.
  clearbody a1. unfold try_except.
  destruct (re_search_braces _) as [text|].
  2:{ intros Kf. eexists _, _. split; [reflexivity|].
      split; [exact Kf | exact K1']. }
  match goal with |- context [let (s, a'0) := ?c ?a in _] =>
    assert (F1 : raising_keeps unlogged c);
    [| assert (F2 : saves c);
       [| assert (F3 : ensures
                  (fun out => exists kvs, out = Some (JObj kvs) /\
                                          json_loads text = inr (JObj kvs)) c);
          [| specialize (F1 a1); specialize (F2 a1); specialize (F3 a1);
             destruct (c a1) as [[e|x] a2] ] ] ]
  end.
  - apply raising_keeps_bind; [apply loads_keeps | intros evaluation].
    apply raising_keeps_bind; [apply keeps_lift | intros learnings].
    apply raising_keeps_bind.
    { keeps_auto. apply record_learning_unlogged. }
    intros _.
    apply raising_keeps_bind; [apply keeps_lift | intros errors].
    apply raising_keeps_then.
    2:{ intros _. apply raises_only_bind;
          [apply save_memory_never_raises | intros _; apply raises_only_ret]. }
    destruct (truthy_opt errors);
      [| apply raising_keeps_never, raises_only_ret].
    apply raising_keeps_bind;
      [apply datetime_now_keeps; reflexivity | intros t].
    apply raising_keeps_bind; [apply keeps_lift | intros value].
    apply raising_keeps_never, raises_only_modify.
  - do 5 (apply saves_bind; intros ?). apply saves_save.
  - intros a0 x a0'. rewrite run_bind. unfold loads.
    destruct (json_loads text) as [msg|v]; [discriminate|].
    cbn [mret M_ret]. destruct v; try (rewrite run_bind; discriminate).
    match goal with |- ?c ?a = _ -> _ =>
      assert (K : returns_only (Some (JObj kvs)) c)
        by (repeat (apply returns_only_bind; intros ?); apply returns_only_ret);
      intros E; specialize (K _ _ _ E); subst x; eauto
    end.
  - intros Kf. eexists _, _. split; [reflexivity|]. split; [exact Kf|].
    eexists. split; [reflexivity|]. right. split; [eauto|].
    rewrite <- K1. by eapply F1.
  - intros Kf. destruct (F3 _ _ eq_refl) as (kvs & -> & Hl).
    eexists _, _. split; [reflexivity|]. split; [exact Kf|].
    exists kvs. split; [reflexivity|]. left. split; [exact Hl|]. by eapply F2.
Qed.

(** X5.  An evaluation whose first learning is a list or an object, which
    cannot be a key of [learned_patterns], is replaced by the default
    evaluation: whatever success the model reported, the step counts as
    failed, and nothing of the evaluation is kept in memory. *)
Theorem unhashable_learning_fails result a kvs l ls :
  decoded_evaluation result a kvs ->
  dict_get kvs "learnings" = Some (JArr (l :: ls)) ->
  hashable l = false ->
  evaluate_result result a
  = (inr (Some (default_evaluation
                  (TypeError ("unhashable type: '" +:+ type_name l +:+ "'")))),
     asked (EvaluationPrompt result) a).
Proof.
  intros (text & Hm & Hl) Hls Hh.
  unfold evaluate_result. rewrite run_bind. cbn [llm_invoke].
  fold (asked (EvaluationPrompt result) a).
  unfold evaluate_result_response in Hm. rewrite Hm. unfold try_except.
  erewrite run_bind_inr by (unfold loads; rewrite Hl; reflexivity).
  erewrite run_bind_inr by reflexivity.
  erewrite run_bind_inl; [reflexivity|].
  rewrite Hls. cbn [truthy_opt truthy].
  erewrite run_bind_inr by (cbn [py_getitem]; rewrite Hls; reflexivity).
  erewrite run_bind_inr by reflexivity.
  cbn [for_each]. erewrite run_bind_inl; [reflexivity|].
  unfold record_learning. rewrite Hh. reflexivity.
Qed.

(** X6.  An evaluation that lists errors, and no learnings, is returned
    as it is; its errors are logged once, with the time and with the
    result of the step as their context, and the memory is on disk. *)
Theorem errors_logged result a kvs errors :
  decoded_evaluation result a kvs ->
  truthy_opt (dict_get kvs "learnings") = false ->
  dict_get kvs "errors" = Some errors ->
  truthy errors = true ->
  exists a',
    evaluate_result result a = (inr (Some (JObj kvs)), a') /\
    error_log (memory a')
      = error_log (memory a)
        ++ [error_entry (isoformat (now (ticks a))) errors result] /\
    learned_patterns (memory a') = learned_patterns (memory a) /\
    saved a'.
Proof.
  intros (text & Hm & Hl) Hls He Ht.
  unfold evaluate_result. rewrite run_bind. cbn [llm_invoke].
  unfold evaluate_result_response in Hm. rewrite Hm. unfold try_except.
  erewrite run_bind_inr by (unfold loads; rewrite Hl; reflexivity).
  erewrite run_bind_inr by reflexivity.
  cbn [from_option]. rewrite Hls.
  erewrite run_bind_inr by reflexivity.
  erewrite run_bind_inr by reflexivity.
  rewrite He. cbn [truthy_opt]. rewrite Ht.
  erewrite run_bind_inr.
  2:{ erewrite run_bind_inr by reflexivity.
      erewrite run_bind_inr by (cbn [py_getitem]; rewrite He; reflexivity).
      reflexivity. }
  eexists. split; [reflexivity|]. repeat split.
  unfold saved. simpl. apply lookup_insert_eq.
Qed.

(** *** Counting the learnings *)

Lemma kdict_get_set_other d k k' v :
  k <> k' ->
  kdict_get (kdict_set d (JStr k) v) (JStr k') = kdict_get d (JStr k').
Proof.
  intros Hne. induction d as [|[k0 v0] d IH]; simpl.
  - destruct (k =? k')%string eqn:E; [| reflexivity].
    apply String.eqb_eq in E. contradiction.
  - destruct (key_eqb k0 (JStr k)) eqn:E; simpl.
    + destruct k0; try discriminate. simpl in E.
      apply String.eqb_eq in E. subst s. simpl.
      destruct (k =? k')%string eqn:E'; [| reflexivity].
      apply String.eqb_eq in E'. contradiction.
    + by rewrite IH.
Qed.

Lemma count_of_recorded k k' a :
  patterns_counted a ->
  exists a',
    record_learning (JStr k) a = (inr tt, a') /\
    patterns_counted a' /\
    count_of k' a' = (count_of k' a + if decide (k' = k) then 1 else 0)%Z.
Proof.
  intros Hwf. destruct (pattern_of k a) as [v|] eqn:E.
  - destruct (Hwf k v E) as (kvs & n & -> & Hn).
    eexists. split; [by eapply record_learning_seen|]. split.
    + intros k1 v1. unfold pattern_of, upsert_seen. simpl.
      destruct (decide (k = k1)) as [<-|Hne].
      * rewrite kdict_get_set_eq by apply key_eqb_str. intros [= <-].
        eexists _, _. split; [reflexivity | apply dict_get_set_eq].
      * rewrite kdict_get_set_other by done. apply Hwf.
    + unfold count_of, pattern_of, upsert_seen. simpl.
      destruct (decide (k' = k)) as [->|Hne].
      * rewrite kdict_get_set_eq by apply key_eqb_str.
        rewrite dict_get_set_eq. unfold pattern_of in E. by rewrite E, Hn.
      * rewrite kdict_get_set_other by done. lia.
  - eexists. split; [by eapply record_learning_new|]. split.
    + intros k1 v1. unfold pattern_of, upsert_new. simpl.
      destruct (decide (k = k1)) as [<-|Hne].
      * rewrite kdict_get_set_eq by apply key_eqb_str. intros [= <-].
        eexists _, _. split; reflexivity.
      * rewrite kdict_get_set_other by done. apply Hwf.
    + unfold count_of, pattern_of, upsert_new. simpl.
      destruct (decide (k' = k)) as [->|Hne].
      * rewrite kdict_get_set_eq by apply key_eqb_str.
        unfold pattern_of in E. by rewrite E.
      * rewrite kdict_get_set_other by done. lia.
Qed.

Lemma count_of_loop ls : forall a,
  patterns_counted a ->
  exists a',
    for_each (JStr <$> ls) record_learning a = (inr tt, a') /\
    forall k,
      count_of k a' = (count_of k a + Z.of_nat (count_occ string_dec ls k))%Z.
Proof.
  induction ls as [|l ls IH]; intros a Hwf.
  - eexists. split; [reflexivity|]. intros k. simpl. lia.
  - destruct (count_of_recorded l l a Hwf) as (a1 & H1 & Hwf1 & _).
    destruct (IH a1 Hwf1) as (a2 & H2 & Hc).
    exists a2. rewrite fmap_cons. cbn [for_each].
    rewrite (run_bind_inr _ _ _ _ _ H1). split; [exact H2|].
    intros k. rewrite Hc.
    destruct (count_of_recorded l k a Hwf) as (a1' & H1' & _ & Hk).
    rewrite H1 in H1'. injection H1' as <-. rewrite Hk. simpl.
    destruct (string_dec l k) as [->|Hne].
    + rewrite decide_True by done. lia.
    + rewrite decide_False by done. lia.
Qed.

(** X7.  In a memory whose learnings have their count, an evaluation
    that lists learning strings adds to the count of every learning the
    number of times the list names it: a learning named twice in one
    evaluation counts twice. *)
Theorem learnings_counted result a kvs ls k :
  patterns_counted a ->
  decoded_evaluation result a kvs ->
  dict_get kvs "learnings" = Some (JArr (JStr <$> ls)) ->
  count_of k (snd (evaluate_result result a))
  = (count_of k a + Z.of_nat (count_occ string_dec ls k))%Z.
Proof.
  intros Hwf Hd Hls.
  unfold count_of at 1. unfold pattern_of.
  rewrite (evaluate_result_patterns _ _ _ _ Hd Hls).
  destruct (count_of_loop ls (asked (EvaluationPrompt result) a) Hwf)
    as (a' & -> & Hc).
  apply Hc.
Qed.

(** *** The loop over the steps, run by run *)

Lemma evaluate_result_none result a a' :
  evaluate_result result a = (inr None, a') ->
  re_search_braces (evaluate_result_response result a) = None /\
  a' = asked (EvaluationPrompt result) a.
Proof.
  intros H.
  destruct (re_search_braces (evaluate_result_response result a)) eqn:E.
  - destruct (evaluate_result_some result a) as (kvs & a2 & H2); [congruence|].
    congruence.
  - rewrite (evaluate_result_no_match _ _ E) in H. by injection H as <-.
Qed.

Lemma unanswered_asked p a :
  re_search_braces (llm (length (transcript a)) p) = None ->
  unanswered (asked p a).
Proof.
  intros H. eexists _, _. split; [| exact H]. simpl. apply last_snoc.
Qed.

Lemma evaluate_result_counts result a out a' :
  evaluate_result result a = (inr out, a') ->
  calls a' = S (calls a) /\ turns a' = turns a /\ heap a' = heap a.
Proof.
  intros H. pose proof (evaluate_result_frame result a) as K.
  rewrite H in K. unfold evaluation_frame in K. simpl in K.
  injection K as _ _ Kh _ Kp Kt. unfold calls, turns.
  rewrite Kh, Kt, Kp, length_app. simpl. repeat split; lia.
Qed.

Lemma execute_step_counts step context a result a' :
  execute_step step context a = (inr result, a') ->
  calls a' = S (calls a) /\ turns a' = S (turns a) /\ heap a' = heap a.
Proof.
  rewrite execute_step_run. intros H. injection H as _ <-.
  unfold calls, turns. simpl. rewrite !length_app. simpl.
  repeat split; lia.
Qed.

(** Every run of the body of the loop.  When it returns it has executed
    the step once or twice, asking the model twice for each execution,
    and has put the entry of the step in the context; when it raises,
    the exception is the [AttributeError] of an evaluation that is
    [None]. *)
Lemma run_step_run context i step results a :
  match run_step context i step results a with
  | (inr results', a') =>
      exists extra,
        results' = results ++ extra /\
        (1 <= length extra <= 2)%nat /\
        calls a' = (calls a + 2 * length extra)%nat /\
        turns a' = (turns a + length extra)%nat /\
        exists result evaluation,
          heap a'
          = alter (fun d => dict_set d (step_key i)
                              (context_entry step result evaluation))
              context (heap a)
  | (inl e, a') => exn_class e = "AttributeError" /\ unanswered a'
  end.
Proof.
  destruct (execute_step_returns step context a) as (result & a1 & H1).
  destruct (execute_step_counts _ _ _ _ _ H1) as (C1 & T1 & P1).
  destruct (evaluate_result_returns result a1) as (out & a2 & H2).
  destruct (evaluate_result_counts _ _ _ _ H2) as (C2 & T2 & P2).
  destruct out as [ev|].
  2:{ rewrite (run_step_unevaluated _ _ _ _ _ _ _ _ H1 H2).
      split; [reflexivity|].
      apply evaluate_result_none in H2 as [Hn ->].
      by apply unanswered_asked in Hn. }
  destruct (evaluate_result_dict _ _ _ _ H2) as [kvs ->].
  destruct (truthy (from_option id (JBool false) (dict_get kvs "success")))
    eqn:Es.
  { erewrite run_step_success; [| exact H1 | exact H2 |].
    2:{ unfold reports_failure. congruence. }
    exists [result]. unfold calls, turns in C1, T1, C2, T2 |- *. simpl.
    repeat split; try lia. eexists _, _. by rewrite P2, P1. }
  destruct (execute_step_returns (retry_step kvs step) context
              (recorded context i step result (Some (JObj kvs)) a2))
    as (retry_result & a4 & H4).
  destruct (execute_step_counts _ _ _ _ _ H4) as (C4 & T4 & P4).
  destruct (evaluate_result_returns retry_result a4) as (out' & a5 & H5).
  destruct (evaluate_result_counts _ _ _ _ H5) as (C5 & T5 & P5).
  destruct out' as [ev'|].
  2:{ erewrite run_step_retry_unevaluated;
        [| exact H1 | exact H2 | exact Es | exact H4 | exact H5].
      split; [reflexivity|].
      apply evaluate_result_none in H5 as [Hn ->].
      by apply unanswered_asked in Hn. }
  destruct (evaluate_result_dict _ _ _ _ H5) as [kvs' ->].
  erewrite run_step_retry;
    [| exact H1 | exact H2 | exact Es | exact H4 | exact H5].
  exists [result; retry_result].
  unfold calls, turns in C1, T1, C2, T2, C4, T4, C5, T5 |- *. simpl in *|-.
  simpl. repeat split; try lia. eexists _, _. by rewrite P5, P4, P2, P1.
Qed.

Lemma step_key_inj i j : step_key i = step_key j -> i = j.
Proof.
  unfold step_key. intros H.
  assert (E : pretty (S i) = pretty (S j)).
  { revert H. generalize (pretty (S i)) (pretty (S j)). intros s t H.
    change (String "s" (String "t" (String "e" (String "p" (String "_" s))))
            = String "s" (String "t" (String "e" (String "p" (String "_" t)))))
      in H.
    by injection H. }
  apply (inj pretty) in E. lia.
Qed.

(** The context a reference leads to. *)
Lemma context_altered context (h : list (list (string * json))) k v k' :
  dict_get
    (default [] (alter (fun d => dict_set d k v) context h !! context)) k'
  = if decide (k = k' /\ (context < length h)%nat) then Some v
    else dict_get (default [] (h !! context)) k'.
Proof.
  rewrite list_lookup_alter_eq.
  destruct (h !! context) as [d|] eqn:E; case_decide as Hd.
  - destruct Hd as [<- _]. apply dict_get_set_eq.
  - apply lookup_lt_Some in E.
    apply (dict_get_set_ne d k k' v). intros ->. by apply Hd.
  - apply lookup_ge_None in E. lia.
  - reflexivity.
Qed.

Lemma run_steps_run context plan_steps : forall i results a,
  match run_steps context i plan_steps results a with
  | (inr results', a') =>
      (exists extra,
        results' = results ++ extra /\
        (length plan_steps <= length extra <= 2 * length plan_steps)%nat /\
        calls a' = (calls a + 2 * length extra)%nat /\
        turns a' = (turns a + length extra)%nat) /\
      length (heap a') = length (heap a) /\
      (forall k, (forall j, k <> step_key (i + j)) ->
         dict_get (default [] (heap a' !! context)) k
         = dict_get (default [] (heap a !! context)) k) /\
      ((context < length (heap a))%nat ->
       forall j step, plan_steps !! j = Some step ->
         exists result evaluation,
           dict_get (default [] (heap a' !! context)) (step_key (i + j))
           = Some (context_entry step result evaluation))
  | (inl e, a') => exn_class e = "AttributeError" /\ unanswered a'
  end.
Proof.
  induction plan_steps as [|step rest IH]; intros i results a.
  - simpl. split; [| split; [| split]]; [| reflexivity | reflexivity |].
    + exists []. rewrite app_nil_r. simpl. repeat split; lia.
    + intros _ j step Hj. discriminate Hj.
  - cbn [run_steps]. rewrite run_bind.
    pose proof (run_step_run context i step results a) as K1.
    destruct (run_step context i step results a) as [[e|results1] a1];
      [exact K1|].
    destruct K1 as (extra1 & -> & L1 & C1 & T1 & result & ev & P1).
    specialize (IH (S i) (results ++ extra1) a1).
    destruct (run_steps context (S i) rest (results ++ extra1) a1)
      as [[e|results2] a2]; [exact IH|].
    destruct IH as ((extra2 & -> & L2 & C2 & T2) & N2 & F2 & S2).
    split; [| split; [| split]].
    + exists (extra1 ++ extra2). rewrite app_assoc, length_app. simpl.
      repeat split; lia.
    + by rewrite N2, P1, length_alter.
    + intros k Hk. rewrite F2.
      2:{ intros j. replace (S i + j)%nat with (i + S j)%nat by lia. apply Hk. }
      rewrite P1, context_altered. rewrite decide_False; [reflexivity|].
      intros [E _]. apply (Hk 0%nat). by rewrite Nat.add_0_r.
    + intros Hc [|j] step' Hj; simpl in Hj.
      * injection Hj as <-. rewrite Nat.add_0_r. rewrite F2.
        2:{ intros j E. apply step_key_inj in E. lia. }
        rewrite P1, context_altered. rewrite decide_True by done. eauto.
      * replace (i + S j)%nat with (S i + j)%nat by lia.
        apply S2; [by rewrite P1, length_alter | exact Hj].
Qed.

(** *** [execute_task], run by run *)

Lemma plan_task_counts user_request a out a' :
  plan_task user_request a = (inr out, a') ->
  calls a' = S (calls a) /\ turns a' = turns a /\ heap a' = heap a.
Proof.
  intros H.
  set (f := fun a : agent =>
              (transcript a, conversation_history (memory a), heap a)).
  assert (K : f (snd (plan_task user_request a))
              = f (asked (PlanningPrompt user_request) a)).
  { unfold plan_task. rewrite keeps_after; [reflexivity|].
    intros response. unfold loads, kwargs_of, TaskPlan_init, append_plan.
    keeps_auto.
    all: first [ apply datetime_now_keeps; reflexivity
               | apply save_memory_keeps; reflexivity ]. }
  rewrite H in K. unfold f in K. simpl in K. injection K as Kt Kh Kp.
  unfold calls, turns. rewrite Kt, Kh, Kp, length_app. simpl.
  repeat split; lia.
Qed.

Lemma plan_task_none user_request a a' :
  plan_task user_request a = (inr None, a') ->
  re_search_braces (plan_task_response user_request a) = None /\
  a' = asked (PlanningPrompt user_request) a.
Proof.
  intros H.
  destruct (re_search_braces (plan_task_response user_request a)) eqn:E.
  - destruct (plan_task_some user_request a) as (r & a2 & H2); [congruence|].
    congruence.
  - rewrite (plan_task_no_match _ _ E) in H. by injection H as <-.
Qed.

Lemma request_not_step j : "request" <> step_key j.
Proof. unfold step_key. intros H. discriminate H. Qed.

(** Every run of [execute_task], by what it costs and by what it leaves
    in the context of the task, the last object made.  When it returns
    it has executed every step of the plan once or twice, and has asked
    the model once for the plan and twice for each execution; when it
    raises, the exception is an [AttributeError] and the last answer of
    the model had no JSON object to find. *)
Lemma execute_task_counts user_request a :
  match execute_task user_request a with
  | (inr res, a') =>
      exists p,
        result_plan res = Some p /\
        (length (steps p) <= length (result_results res)
         <= 2 * length (steps p))%nat /\
        calls a' = (calls a + 1 + 2 * length (result_results res))%nat /\
        turns a' = (turns a + 1 + length (result_results res))%nat /\
        exists context,
          heap a' !! length (heap a) = Some context /\
          length (heap a') = S (length (heap a)) /\
          dict_get context "request" = Some (JStr user_request) /\
          forall j step, steps p !! j = Some step ->
            exists result evaluation,
              dict_get context (step_key j)
              = Some (context_entry step result evaluation)
  | (inl e, a') => exn_class e = "AttributeError" /\ unanswered a'
  end.
Proof.
  unfold execute_task. rewrite run_bind. cbn [datetime_now].
  rewrite run_bind. cbn [modify_memory modify].
  set (a1 := with_memory _ _).
  assert (K1 : calls a1 = calls a /\ turns a1 = S (turns a) /\
               heap a1 = heap a).
  { unfold calls, turns, a1. simpl. rewrite length_app. simpl.
    repeat split; lia. }
  clearbody a1. destruct K1 as (C1 & T1 & P1).
  rewrite run_bind.
  destruct (plan_task_run user_request a1) as (out & a2 & E2 & _ & _ & Hout).
  destruct (plan_task_counts _ _ _ _ E2) as (C2 & T2 & P2).
  rewrite E2. rewrite run_bind. cbn [modify].
  destruct out as [r|]; cbn [raise].
  2:{ split; [reflexivity|].
      apply plan_task_none in E2 as [Hn ->].
      by apply unanswered_asked in Hn. }
  destruct Hout as (-> & p & Hp).
  rewrite run_bind. cbn [plan_update modify_memory modify].
  set (a3 := with_memory _ _).
  assert (K3 : task_state a3
               = (task_plans (memory a1) ++ [set_status "in_progress" p],
                  completed_tasks (memory a2),
                  Some (length (task_plans (memory a1)))) /\
               calls a3 = calls a2 /\ turns a3 = turns a2 /\
               heap a3 = heap a2).
  { unfold task_state, calls, turns, a3. simpl.
    by rewrite Hp, alter_last. }
  clearbody a3. destruct K3 as (K3 & C3 & T3 & P3).
  erewrite run_bind_inr by (unfold alloc_dict; reflexivity).
  erewrite run_bind_inr by (unfold gets; reflexivity).
  set (a4 := with_heap _ a3).
  assert (K4 : task_state a4 = task_state a3 /\
               calls a4 = calls a3 /\ turns a4 = turns a3 /\
               heap a4 = heap a3 ++ [[("request", JStr user_request)]])
    by done.
  assert (Ec : length (heap a3) = length (heap a)) by congruence.
  rewrite Ec. set (context := length (heap a)) in *. clearbody a4.
  destruct K4 as (K4 & C4 & T4 & P4). rewrite K3 in K4.
  assert (HH : plan_at (length (task_plans (memory a1))) a4
               = Some (set_status "in_progress" p)).
  { unfold plan_at. injection K4 as -> _ _. by rewrite lookup_last. }
  rewrite HH. clear HH. cbn [from_option].
  pose proof (run_steps_keeps context (steps (set_status "in_progress" p))
                0 [] a4) as K5.
  pose proof (run_steps_run context (steps (set_status "in_progress" p))
                0 [] a4) as R5.
  rewrite run_bind.
  destruct (run_steps _ _ _ _ a4) as [[e|results] a5]; [exact R5|].
  simpl in K5. rewrite K4 in K5. injection K5 as K5p K5c K5r.
  destruct R5 as ((extra & -> & L5 & C5 & T5) & N5 & F5 & S5).
  unfold dict_ref in F5, S5.
  assert (Hl : length (heap a5) = S (length (heap a))).
  { rewrite N5, P4, length_app. simpl. lia. }
  assert (Hctx : exists d, heap a5 !! context = Some d).
  { apply lookup_lt_is_Some. unfold context. lia. }
  destruct Hctx as [d Hd].
  assert (Hreq : dict_get d "request" = Some (JStr user_request)).
  { pose proof (F5 "request" (fun j => request_not_step _)) as Fr.
    rewrite Hd, P4, <- Ec, lookup_last in Fr. exact Fr. }
  assert (Hsteps : forall j step, steps p !! j = Some step ->
            exists result evaluation,
              dict_get d (step_key j)
              = Some (context_entry step result evaluation)).
  { intros j step Hj.
    assert (Hlt : (context < length (heap a4))%nat).
    { rewrite P4, length_app. simpl. unfold context. lia. }
    destruct (S5 Hlt j step Hj) as (result & ev & Hs).
    rewrite Hd in Hs. eauto. }
  clear F5 S5 N5.
  destruct a5 as [[h5 tp5 ct5 lp5 el5] cp5 fs5 hp5 tr5 tk5].
  unfold calls, turns in *.
  simpl in K5p, K5c, K5r, C5, T5, Hl, Hd. subst tp5 ct5 cp5.
  unfold plan_at. simpl. rewrite !alter_last, !lookup_last. simpl.
  eexists. split; [reflexivity|]. simpl in *.
  repeat split; try lia. exists d. repeat split; assumption.
Qed.



(** X10.  The only exception that [execute_task] lets through is an
    [AttributeError], and it does so only when the model has just given
    an answer in which no closing brace follows an opening one.  The
    task is then left as it stands: no [task_id] is added to
    [completed_tasks], and the plan, if one has been made, stays in
    progress. *)
Theorem execute_task_abort user_request a e a' :
  execute_task user_request a = (inl e, a') ->
  exn_class e = "AttributeError" /\
  unanswered a' /\
  completed_tasks (memory a') = completed_tasks (memory a) /\
  (task_plans (memory a') = task_plans (memory a) \/
   exists p, task_plans (memory a') = task_plans (memory a) ++ [p] /\
             status p = "in_progress").
Proof.
  intros H. pose proof (execute_task_counts user_request a) as K.
  pose proof (execute_task_run user_request a) as R.
  rewrite H in K, R. destruct K as [Ke Ku]. destruct R as [Rc Rp].
  repeat split; try assumption.
  destruct Rp as [Rp|(p & Rp)]; [by left | right].
  by exists (set_status "in_progress" p).
Qed.

(** *** [chat] *)

Lemma history_messages_sent l :
  Forall sendable l ->
  exists recent,
    Forall2 (fun hist m => history_message hist = inr m) l recent /\
    forall a, map_M (fun hist => lift (history_message hist)) l a
              = (inr recent, a).
Proof.
  induction 1 as [|hist l [[role Hr] [content Hc]] _ (recent & HF & IH)].
  - exists []. split; [constructor | reflexivity].
  - assert (Hm : exists m, history_message hist = inr m).
    { unfold history_message. rewrite Hr, Hc. eauto. }
    destruct Hm as [m Hm]. exists (m :: recent). split; [by constructor|].
    intros a. cbn [map_M].
    erewrite run_bind_inr by (rewrite Hm; reflexivity).
    erewrite run_bind_inr by apply IH. reflexivity.
Qed.

Lemma history_messages_unsent l :
  Exists (fun hist => ~ sendable hist) l ->
  exists key, forall a,
    map_M (fun hist => lift (history_message hist)) l a
    = (inl (KeyError key), a).
Proof.
  induction l as [|hist l IH]; intros H; [by apply Exists_nil in H|].
  destruct (history_message hist) as [e|m] eqn:Em.
  - assert (He : exists key, e = KeyError key).
    { revert Em. unfold history_message.
      destruct (dict_get hist "role"); [| intros [= <-]; eauto].
      destruct (dict_get hist "content");
        [discriminate | intros [= <-]; eauto]. }
    destruct He as [key ->]. exists key. intros a. cbn [map_M].
    erewrite run_bind_inl; [reflexivity | by rewrite Em].
  - apply Exists_cons in H as [H|H].
    + exfalso. apply H. revert Em. unfold history_message, sendable.
      destruct (dict_get hist "role"); [| discriminate].
      destruct (dict_get hist "content"); [| discriminate]. eauto.
    + destruct (IH H) as [key Hk]. exists key. intros a. cbn [map_M].
      erewrite run_bind_inr by (rewrite Em; reflexivity).
      erewrite run_bind_inl; [reflexivity | apply Hk].
Qed.

(** X11.  A message without a keyword is a question.  When the last
    three entries of the conversation have their role and content, the
    model is sent the message followed by these entries, its answer is
    returned, and the message and the answer are appended to the
    conversation, with the times read for them; nothing else of the
    memory changes, no plan is made, and the memory is on disk. *)
Theorem chat_question message a :
  is_task message = false ->
  Forall sendable (last_n 3 (conversation_history (memory a))) ->
  exists recent a',
    let response := llm_chat (ticks a) (HumanMessage message :: recent) in
    Forall2 (fun hist m => history_message hist = inr m)
      (last_n 3 (conversation_history (memory a))) recent /\
    chat message a = (inr response, a') /\
    conversation_history (memory a')
      = conversation_history (memory a)
        ++ [user_entry message (isoformat (now (ticks a)));
            assistant_entry response (isoformat (now (S (ticks a))))] /\
    task_plans (memory a') = task_plans (memory a) /\
    completed_tasks (memory a') = completed_tasks (memory a) /\
    learned_patterns (memory a') = learned_patterns (memory a) /\
    error_log (memory a') = error_log (memory a) /\
    current_plan a' = current_plan a /\
    transcript a' = transcript a /\
    saved a'.
Proof.
  intros Hq Hs. destruct (history_messages_sent _ Hs) as (recent & HF & Hm).
  exists recent. eexists. split; [exact HF|].
  unfold chat. rewrite Hq.
  erewrite run_bind_inr by reflexivity. cbn [compose].
  erewrite run_bind_inr by apply Hm.
  split; [reflexivity|]. simpl. rewrite <- app_assoc. repeat split.
  unfold saved. simpl. apply lookup_insert_eq.
Qed.

(** X12.  When one of the last three entries of the conversation lacks
    its role or its content, a question raises a [KeyError] before the
    model is asked and leaves the agent exactly as it was, so that the
    same happens to the next question. *)
Theorem chat_unsendable message a :
  is_task message = false ->
  Exists (fun hist => ~ sendable hist)
    (last_n 3 (conversation_history (memory a))) ->
  exists key, chat message a = (inl (KeyError key), a).
Proof.
  intros Hq Hs. destruct (history_messages_unsent _ Hs) as (key & Hm).
  exists key. unfold chat. rewrite Hq.
  erewrite run_bind_inr by reflexivity. cbn [compose].
  erewrite run_bind_inl; [reflexivity | apply Hm].
Qed.

(** X13.  A message with a keyword is run as a task: [chat] returns when
    [execute_task] does, with the report of the description and of the
    number of steps of the completed plan, and raises what
    [execute_task] raises; the agent is left as [execute_task] leaves
    it. *)
Theorem chat_task message a :
  is_task message = true ->
  match execute_task message a with
  | (inr res, a') =>
      exists p,
        result_plan res = Some p /\
        chat message a
        = (inr (task_report (description p) (length (steps p))), a')
  | (inl e, a') => chat message a = (inl e, a')
  end.
Proof.
  intros Ht. unfold chat. rewrite Ht. rewrite run_bind.
  pose proof (execute_task_run message a) as K.
  destruct (execute_task message a) as [[e|res] a']; [reflexivity|].
  cbv zeta in K. destruct K as (p & _ & _ & _ & Hr & _).
  eexists. split; [exact Hr|]. by rewrite Hr.
Qed.

Lemma chat_saves message : saves (chat message).
Proof.
  intros a out a'. unfold chat. destruct (is_task message).
  - rewrite run_bind. pose proof (execute_task_run message a) as R.
    destruct (execute_task message a) as [[e|res] a1]; [discriminate|].
    cbv zeta in R. destruct R as (q & _ & _ & _ & Hr & _ & R).
    rewrite Hr. intros H. unfold mret, M_ret in H. by simplify_eq.
  - revert a out a'. fold (saves (A := string)).
    do 7 (apply saves_bind; intros ?). apply saves_save.
Qed.

(** X14.  Whenever [chat] returns, for a task or for a question, the
    memory file holds the memory: loading it gives the memory of the
    agent back, provided the text the JSON library wrote reads back as
    the document written, the timestamps read back from their text and
    the learnings are strings. *)
Theorem chat_persists message a out a' :
  chat message a = (inr out, a') ->
  json_loads (json_dumps (AgentMemory_dump (memory a')))
    = inr (AgentMemory_dump (memory a')) ->
  Forall timestamps_readable (task_plans (memory a')) ->
  string_keyed (learned_patterns (memory a')) ->
  load_from_file memory_file a' = (inr (memory a'), a').
Proof.
  intros H Hcodec Ht Hk. apply chat_saves in H. unfold saved in H.
  unfold load_from_file. erewrite run_bind_inr by reflexivity.
  rewrite H.
  erewrite run_bind_inr by (unfold loads; rewrite Hcodec; reflexivity).
  erewrite run_bind_inr by reflexivity.
  by apply AgentMemory_init_dump.
Qed.

(** X15.  [chat] keeps the invariant of the memory, whatever the message
    and whether it returns or raises: if there are no more completed
    tasks than plans and every completed task has a completed plan
    before, so it is after. *)
Theorem chat_invariant message a :
  memory_invariant (memory a) ->
  memory_invariant (memory (snd (chat message a))).
Proof.
  intros IH. unfold chat. destruct (is_task message).
  - rewrite run_bind. pose proof (execute_task_run message a) as K.
    destruct (execute_task message a) as [[e|res] a']; simpl.
    + destruct K as (Kc & [Kp | (p & Kp)]).
      * by eapply invariant_keeps.
      * by eapply invariant_grows.
    + destruct K as (p & Kp & Kc & _ & Hr & _).
      rewrite Hr. simpl. by eapply invariant_completes.
  - match goal with |- context [snd (?c a)] =>
      assert (K : keeps task_state c)
    end.
    { unfold chat_invoke. keeps_auto.
      all: first [ apply datetime_now_keeps; reflexivity
                 | apply save_memory_keeps; reflexivity ]. }
    specialize (K a). unfold task_state in K.
    eapply invariant_keeps; [| | exact IH]; congruence.
Qed.

(** X16.  [chat] returns, for a task as for a question, whenever every
    answer of the model to the task methods has a closing brace after an
    opening one and the last three entries of the conversation have
    their role and content. *)
Theorem chat_returns message a :
  always_braces ->
  Forall sendable (last_n 3 (conversation_history (memory a))) ->
  exists out a', chat message a = (inr out, a').
Proof.
  intros Hb Hs. unfold chat. destruct (is_task message).
  - destruct (execute_task_returns message a Hb) as (res & a' & H).
    pose proof (execute_task_run message a) as K. rewrite H in K.
    cbv zeta in K. destruct K as (p & _ & _ & _ & Hr & _).
    rewrite (run_bind_inr _ _ _ _ _ H), Hr. eexists _, _. reflexivity.
  - destruct (history_messages_sent _ Hs) as (recent & _ & Hm).
    erewrite run_bind_inr by reflexivity. cbn [compose].
    erewrite run_bind_inr by apply Hm.
    eexists _, _. reflexivity.
Qed.

(** *** What a loaded memory looks like *)



End Agent.

(** ** Closed examples

    The methods with the collaborators of [Sample], run on concrete
    answers of the model. *)

Definition sample_execute_task (answers : list string) :=
  execute_task (Sample.scripted answers) Sample.now Sample.isoformat
    Sample.datetime_str Sample.timestamp_text Sample.datetime_validate
    Sample.json_loads Sample.json_dumps Sample.py_str Sample.memory_file.

Definition sample_plan_task (answers : list string) :=
  plan_task (Sample.scripted answers) Sample.now Sample.datetime_str
    Sample.timestamp_text Sample.datetime_validate Sample.json_loads
    Sample.json_dumps Sample.memory_file.

Definition sample_evaluate_result (answers : list string) :=
  evaluate_result (Sample.scripted answers) Sample.now Sample.isoformat
    Sample.datetime_str Sample.json_loads Sample.json_dumps Sample.memory_file.

Definition sample_run_steps (answers : list string) :=
  run_steps (Sample.scripted answers) Sample.now Sample.isoformat
    Sample.datetime_str Sample.json_loads Sample.json_dumps Sample.py_str
    Sample.memory_file.

Definition sample_record_learning :=
  record_learning Sample.now Sample.isoformat.

Definition sample_perform (answers : list string) :=
  perform (Sample.scripted answers) Sample.now Sample.isoformat
    Sample.datetime_str Sample.timestamp_text Sample.datetime_validate
    Sample.json_loads Sample.json_dumps Sample.py_str Sample.memory_file.

Definition sample_reachable (answers : list string) :=
  reachable (Sample.scripted answers) Sample.now Sample.isoformat
    Sample.datetime_str Sample.timestamp_text Sample.datetime_validate
    Sample.json_loads Sample.json_dumps Sample.py_str Sample.memory_file.

Definition sample_load_from_file :=
  load_from_file Sample.now Sample.datetime_validate Sample.json_loads.

Definition sample_save_to_file :=
  save_to_file Sample.datetime_str Sample.json_dumps.

(** The agent after two tasks for which the model gave the same plan. *)
Definition two_tasks_agent : agent :=
  sample_perform Sample.two_tasks_script (ExecuteTask "write it again")
    (sample_perform Sample.two_tasks_script (ExecuteTask Sample.request)
       Sample.new_agent).

Definition sample_chat (answers : list string) (answer : string) :=
  chat (Sample.scripted answers) Sample.now Sample.isoformat
    Sample.datetime_str Sample.timestamp_text Sample.datetime_validate
    Sample.json_loads Sample.json_dumps Sample.py_str Sample.memory_file
    (Sample.answering answer).

Definition sample_saved :=
  saved Sample.datetime_str Sample.json_dumps Sample.memory_file.

(** The one answer of a model that evaluates with the object [kvs]. *)
Definition evaluation_of (kvs : list (string * json)) : list string :=
  [Sample.json_dumps (JObj kvs)].


Example re_search_braces_greedy :
  re_search_braces "Plan: {a} and {b}. Done" = Some "{a} and {b}".
Proof. reflexivity. Qed.

Example re_search_braces_unclosed : re_search_braces "} then {" = None.
Proof. reflexivity. Qed.

(** A task whose only step fails its evaluation, and its retry's, is
    completed all the same (C1 at a concrete run). *)
Lemma execute_task_completes_witness :
  exists res a',
    sample_execute_task Sample.failing_step_script Sample.request
      Sample.new_agent
      = (inr res, a') /\
    exists p,
      result_plan res = Some p /\
      status p = "completed" /\
      completed_at p = Some (Sample.now (ticks a' - 2)) /\
      task_plans (memory a') = task_plans (memory Sample.new_agent) ++ [p] /\
      completed_tasks (memory a')
        = completed_tasks (memory Sample.new_agent) ++ [task_id p] /\
      result_success res = true.
Proof.
  eexists _, _. split.
  - vm_compute. reflexivity.
  - apply (execute_task_completes
             (Sample.scripted Sample.failing_step_script)
             Sample.now Sample.isoformat Sample.datetime_str
             Sample.timestamp_text Sample.datetime_validate Sample.json_loads
             Sample.json_dumps Sample.py_str Sample.memory_file Sample.request
             Sample.new_agent).
    vm_compute. reflexivity.
Defined.

(** An answer in prose to the planning: no plan (C2 at a concrete run). *)
Lemma plan_task_without_json_witness :
  exists a',
    sample_plan_task Sample.prose_plan_script Sample.request Sample.new_agent
      = (inr None, a') /\
    task_plans (memory a') = task_plans (memory Sample.new_agent).
Proof.
  apply (plan_task_without_json (Sample.scripted Sample.prose_plan_script)).
  reflexivity.
Defined.

Example execute_task_prose_plan :
  fst (sample_execute_task Sample.prose_plan_script Sample.request
         Sample.new_agent)
  = inl (AttributeError "'NoneType' object has no attribute 'status'").
Proof. vm_compute. reflexivity. Qed.

(** An answer in prose to the evaluation: no evaluation (C3 at a concrete
    run). *)
Lemma evaluate_result_without_json_witness :
  exists a',
    sample_evaluate_result ["The step looks fine to me."]
      (step_result "a step" "done" "T1000") Sample.new_agent
      = (inr None, a') /\
    memory a' = memory Sample.new_agent.
Proof.
  apply (evaluate_result_without_json
           (Sample.scripted ["The step looks fine to me."])).
  reflexivity.
Defined.

(** The task then stops at the first step, which is not retried: the
    model has been asked three times. *)
Example execute_task_prose_evaluation :
  let run := sample_execute_task Sample.prose_evaluation_script
               Sample.request Sample.new_agent in
  fst run = inl (AttributeError "'NoneType' object has no attribute 'get'") /\
  length (transcript (snd run)) = 3%nat /\
  status <$> task_plans (memory (snd run)) = ["in_progress"] /\
  completed_tasks (memory (snd run)) = [].
Proof. vm_compute. repeat split. Qed.

(** An answer in prose to the evaluation of a retry: the loop stops
    before the second step (C4 at a concrete run). *)
Lemma retry_without_evaluation_aborts_witness :
  exists a',
    sample_run_steps Sample.prose_retry_steps 0%nat 0%nat
      ["define function add(a,b)"; "write a test"] [] Sample.working_agent
    = (inl (AttributeError "'NoneType' object has no attribute 'get'"), a').
Proof.
  eexists. unfold sample_run_steps.
  eapply (retry_without_evaluation_aborts
            (Sample.scripted Sample.prose_retry_steps)
            Sample.now Sample.isoformat Sample.datetime_str Sample.json_loads
            Sample.json_dumps Sample.py_str Sample.memory_file 0%nat 0%nat
            "define function add(a,b)" ["write a test"] []
            Sample.working_agent).
  - vm_compute. reflexivity.
  - vm_compute. reflexivity.
  - vm_compute. reflexivity.
  - vm_compute. reflexivity.
  - vm_compute. reflexivity.
Defined.

Example execute_task_prose_retry :
  let run := sample_execute_task Sample.prose_retry_script Sample.request
               Sample.new_agent in
  fst run = inl (AttributeError "'NoneType' object has no attribute 'get'") /\
  length (transcript (snd run)) = 5%nat /\
  status <$> task_plans (memory (snd run)) = ["in_progress"] /\
  completed_tasks (memory (snd run)) = [].
Proof. vm_compute. repeat split. Qed.

(** A learning that is new, and one that has been met (C5 at concrete
    agents). *)
Lemma record_learning_upsert_witness :
  (exists a',
     sample_record_learning (JStr "use caching") Sample.new_agent
       = (inr tt, a') /\
     pattern_of "use caching" a'
       = Some (JObj [("count", JInt 1);
                     ("first_seen", JStr (Sample.isoformat (Sample.now 0)))])) /\
  (exists a',
     sample_record_learning (JStr "use caching") Sample.seen_agent
       = (inr tt, a') /\
     exists kvs n kvs',
       JObj [("count", JInt 1); ("first_seen", JStr "T1000")] = JObj kvs /\
       dict_get kvs "count" = Some (JInt n) /\
       pattern_of "use caching" a' = Some (JObj kvs') /\
       dict_get kvs' "count" = Some (JInt (n + 1)) /\
       dict_get kvs' "first_seen" = dict_get kvs "first_seen").
Proof.
  split.
  - apply (record_learning_upsert Sample.now Sample.isoformat "use caching"
             Sample.new_agent).
    intros v H. discriminate H.
  - apply (record_learning_upsert Sample.now Sample.isoformat "use caching"
             Sample.seen_agent).
    intros v H. injection H as <-. eexists _, _. split; reflexivity.
Defined.

(** Two evaluations that each emit [use caching]. *)
Example use_caching_twice :
  let a1 := snd (sample_evaluate_result
                   [Sample.caching_answer; Sample.caching_answer]
                   (step_result "a step" "done" "T1000") Sample.new_agent) in
  let a2 := snd (sample_evaluate_result
                   [Sample.caching_answer; Sample.caching_answer]
                   (step_result "another step" "done" "T1002") a1) in
  pattern_of "use caching" a2
  = Some (JObj [("count", JInt 2); ("first_seen", JStr "T1000")]).
Proof. vm_compute. reflexivity. Qed.

(** C6 at a memory file that is not JSON: the exception is the one of
    [json.loads], a [JSONDecodeError]. *)
Lemma load_from_file_corrupt :
  fs Sample.corrupt_agent !! Sample.memory_file = Some Sample.corrupt_text /\
  ~ decodes Sample.now Sample.datetime_validate Sample.json_loads
      Sample.corrupt_text Sample.corrupt_agent /\
  exists e,
    sample_load_from_file Sample.memory_file Sample.corrupt_agent
      = (inl e, Sample.corrupt_agent) /\
    exn_class e = "JSONDecodeError" /\
    exn_class e <> "CorruptStateError".
Proof.
  split; [reflexivity|]. split.
  - intros (kwargs & m & a' & H & _). vm_compute in H. discriminate.
  - eexists. split; [vm_compute; reflexivity|]. split; [reflexivity|].
    discriminate.
Qed.

Example load_from_file_missing :
  sample_load_from_file Sample.memory_file Sample.new_agent
  = (inr fresh_memory, Sample.new_agent).
Proof. reflexivity. Qed.

(** Saving and loading [Sample.sample_memory] (C7 at a concrete memory). *)
Lemma save_load_roundtrip_witness :
  exists a',
    (sample_save_to_file Sample.sample_memory Sample.memory_file
     ≫= fun _ => sample_load_from_file Sample.memory_file) Sample.new_agent
    = (inr Sample.sample_memory, a').
Proof.
  apply (save_load_roundtrip Sample.now Sample.datetime_str
           Sample.datetime_validate Sample.json_loads Sample.json_dumps
           Sample.sample_memory Sample.memory_file Sample.new_agent).
  - vm_compute. reflexivity.
  - constructor.
    { split; [vm_compute; reflexivity |].
      intros d H. injection H as <-. vm_compute. reflexivity. }
    constructor; [| constructor].
    split; [vm_compute; reflexivity |]. intros d H. discriminate H.
  - constructor; [| constructor]. eexists. reflexivity.
Defined.

Lemma two_tasks_reachable :
  sample_reachable Sample.two_tasks_script two_tasks_agent.
Proof.
  unfold sample_reachable, two_tasks_agent, sample_perform.
  apply reachable_perform, reachable_perform, reachable_fresh. reflexivity.
Qed.

Example two_tasks_memory :
  task_id <$> task_plans (memory two_tasks_agent) = ["unique_id"; "unique_id"] /\
  status <$> task_plans (memory two_tasks_agent) = ["completed"; "completed"] /\
  completed_tasks (memory two_tasks_agent) = ["unique_id"; "unique_id"].
Proof. vm_compute. repeat split. Qed.

(** C8 as stated, at the memory two tasks with one [task_id] leave: the
    identifier has two completed plans, not one. *)
Lemma repeated_task_id :
  sample_reachable Sample.two_tasks_script two_tasks_agent /\
  ~ one_plan_invariant (memory two_tasks_agent).
Proof.
  split; [exact two_tasks_reachable|].
  intros [_ H]. destruct (H "unique_id") as (i & _ & Hu).
  { vm_compute. left. }
  assert (H0 : 0%nat = i).
  { eapply Hu; [vm_compute; reflexivity | split; reflexivity]. }
  assert (H1 : 1%nat = i).
  { eapply Hu; [vm_compute; reflexivity | split; reflexivity]. }
  congruence.
Qed.

(** The invariant at that memory (C8, as the code has it, at a concrete
    agent). *)
Lemma reachable_invariant_witness :
  memory_invariant (memory two_tasks_agent).
Proof.
  apply (reachable_invariant (Sample.scripted Sample.two_tasks_script)
           Sample.now Sample.isoformat Sample.datetime_str
           Sample.timestamp_text Sample.datetime_validate Sample.json_loads
           Sample.json_dumps Sample.py_str Sample.memory_file two_tasks_agent).
  exact two_tasks_reachable.
Defined.

(** ** Closed examples of the further properties *)

(** An evaluation that reports success and gives its learning as an
    object: the default evaluation is returned (X5 at a concrete run). *)
Lemma unhashable_learning_fails_witness :
  sample_evaluate_result (evaluation_of Sample.object_learning)
    Sample.a_result Sample.new_agent
  = (inr (Some (default_evaluation (TypeError "unhashable type: 'dict'"))),
     asked (Sample.scripted (evaluation_of Sample.object_learning))
       (EvaluationPrompt Sample.a_result) Sample.new_agent).
Proof.
  apply (unhashable_learning_fails
           (Sample.scripted (evaluation_of Sample.object_learning))
           Sample.now Sample.isoformat Sample.datetime_str Sample.json_loads
           Sample.json_dumps Sample.memory_file Sample.a_result
           Sample.new_agent Sample.object_learning
           (JObj [("pattern", JStr "use caching")]) []).
  - eexists. split; [vm_compute; reflexivity | vm_compute; reflexivity].
  - reflexivity.
  - reflexivity.
Defined.

(** An evaluation that lists one error (X6 at a concrete run). *)
Lemma errors_logged_witness :
  exists a',
    sample_evaluate_result (evaluation_of Sample.one_error) Sample.a_result
      Sample.new_agent
    = (inr (Some (JObj Sample.one_error)), a') /\
    error_log (memory a')
      = error_log (memory Sample.new_agent)
        ++ [error_entry
              (Sample.isoformat (Sample.now (ticks Sample.new_agent)))
              (JArr [JStr "boom"]) Sample.a_result] /\
    learned_patterns (memory a') = learned_patterns (memory Sample.new_agent) /\
    sample_saved a'.
Proof.
  apply (errors_logged (Sample.scripted (evaluation_of Sample.one_error))
           Sample.now Sample.isoformat Sample.datetime_str Sample.json_loads
           Sample.json_dumps Sample.memory_file Sample.a_result
           Sample.new_agent Sample.one_error (JArr [JStr "boom"])).
  - eexists. split; [vm_compute; reflexivity | vm_compute; reflexivity].
  - reflexivity.
  - reflexivity.
  - reflexivity.
Defined.

(** An evaluation that names [use caching] twice (X7 at a concrete run). *)
Lemma learnings_counted_witness :
  count_of "use caching"
    (snd (sample_evaluate_result (evaluation_of Sample.repeated_learning)
            Sample.a_result Sample.new_agent))
  = (count_of "use caching" Sample.new_agent
     + Z.of_nat (count_occ string_dec ["use caching"; "use caching"]
                   "use caching"))%Z.
Proof.
  apply (learnings_counted
           (Sample.scripted (evaluation_of Sample.repeated_learning))
           Sample.now Sample.isoformat Sample.datetime_str Sample.json_loads
           Sample.json_dumps Sample.memory_file Sample.a_result
           Sample.new_agent Sample.repeated_learning
           ["use caching"; "use caching"] "use caching").
  - intros k v H. discriminate H.
  - eexists. split; [vm_compute; reflexivity | vm_compute; reflexivity].
  - reflexivity.
Defined.

Example use_caching_counted :
  count_of "use caching"
    (snd (sample_evaluate_result (evaluation_of Sample.repeated_learning)
            Sample.a_result Sample.new_agent))
  = 2%Z.
Proof. vm_compute. reflexivity. Qed.


Example failing_step_effort :
  let run := sample_execute_task Sample.failing_step_script Sample.request
               Sample.new_agent in
  calls (snd run) = 5%nat /\ turns (snd run) = 3%nat.
Proof. vm_compute. split; reflexivity. Qed.


(** The task whose evaluation is answered in prose (X10 at a concrete
    run). *)
Lemma execute_task_abort_witness :
  exists e a',
    sample_execute_task Sample.prose_evaluation_script Sample.request
      Sample.new_agent
      = (inl e, a') /\
    exn_class e = "AttributeError" /\
    unanswered a' /\
    completed_tasks (memory a') = completed_tasks (memory Sample.new_agent) /\
    (task_plans (memory a') = task_plans (memory Sample.new_agent) \/
     exists p,
       task_plans (memory a') = task_plans (memory Sample.new_agent) ++ [p] /\
       status p = "in_progress").
Proof.
  eexists _, _. split.
  - vm_compute. reflexivity.
  - apply (execute_task_abort
             (Sample.scripted Sample.prose_evaluation_script)
             Sample.now Sample.isoformat Sample.datetime_str
             Sample.timestamp_text Sample.datetime_validate Sample.json_loads
             Sample.json_dumps Sample.py_str Sample.memory_file Sample.request
             Sample.new_agent).
    vm_compute. reflexivity.
Defined.

(** [chat] on concrete messages. *)
Example question_is_no_task : is_task Sample.question = false.
Proof. reflexivity. Qed.

Example fix_is_a_task : is_task Sample.task_message = true.
Proof. reflexivity. Qed.

(** A word that holds a keyword makes a task of a question. *)
Example latest_is_a_task : is_task "What is the latest version?" = true.
Proof. reflexivity. Qed.

(** A question to an agent that is new (X11 at a concrete run). *)
Lemma chat_question_witness :
  exists recent a',
    let response :=
      Sample.answering "A monoid." (ticks Sample.new_agent)
        (HumanMessage Sample.question :: recent) in
    Forall2 (fun hist m => history_message hist = inr m)
      (last_n 3 (conversation_history (memory Sample.new_agent))) recent /\
    sample_chat [] "A monoid." Sample.question Sample.new_agent
      = (inr response, a') /\
    conversation_history (memory a')
      = conversation_history (memory Sample.new_agent)
        ++ [user_entry Sample.question
              (Sample.isoformat (Sample.now (ticks Sample.new_agent)));
            assistant_entry response
              (Sample.isoformat (Sample.now (S (ticks Sample.new_agent))))] /\
    task_plans (memory a') = task_plans (memory Sample.new_agent) /\
    completed_tasks (memory a') = completed_tasks (memory Sample.new_agent) /\
    learned_patterns (memory a') = learned_patterns (memory Sample.new_agent) /\
    error_log (memory a') = error_log (memory Sample.new_agent) /\
    current_plan a' = current_plan Sample.new_agent /\
    transcript a' = transcript Sample.new_agent /\
    sample_saved a'.
Proof.
  apply (chat_question (Sample.scripted []) Sample.now Sample.isoformat
           Sample.datetime_str Sample.timestamp_text Sample.datetime_validate
           Sample.json_loads Sample.json_dumps Sample.py_str
           Sample.memory_file (Sample.answering "A monoid.") Sample.question
           Sample.new_agent).
  - reflexivity.
  - constructor.
Defined.

(** A question to an agent whose last entry has no role (X12 at a
    concrete agent). *)
Lemma chat_unsendable_witness :
  exists key,
    sample_chat [] "A monoid." Sample.question Sample.roleless_agent
    = (inl (KeyError key), Sample.roleless_agent).
Proof.
  apply (chat_unsendable (Sample.scripted []) Sample.now Sample.isoformat
           Sample.datetime_str Sample.timestamp_text Sample.datetime_validate
           Sample.json_loads Sample.json_dumps Sample.py_str
           Sample.memory_file (Sample.answering "A monoid.") Sample.question
           Sample.roleless_agent).
  - reflexivity.
  - apply Exists_cons_hd. intros [[role H] _]. discriminate H.
Defined.

(** A message with [FIX] in capitals (X13 at a concrete run). *)
Lemma chat_task_witness :
  match sample_execute_task Sample.failing_step_script Sample.task_message
          Sample.new_agent with
  | (inr res, a') =>
      exists p,
        result_plan res = Some p /\
        sample_chat Sample.failing_step_script "" Sample.task_message
          Sample.new_agent
        = (inr (task_report (description p) (length (steps p))), a')
  | (inl e, a') =>
      sample_chat Sample.failing_step_script "" Sample.task_message
        Sample.new_agent
      = (inl e, a')
  end.
Proof.
  apply (chat_task (Sample.scripted Sample.failing_step_script)
           Sample.now Sample.isoformat Sample.datetime_str
           Sample.timestamp_text Sample.datetime_validate Sample.json_loads
           Sample.json_dumps Sample.py_str Sample.memory_file
           (Sample.answering "") Sample.task_message Sample.new_agent).
  reflexivity.
Defined.

Example chat_task_report :
  fst (sample_chat Sample.failing_step_script "" Sample.task_message
         Sample.new_agent)
  = inr (task_report "add two numbers" 1).
Proof. vm_compute. reflexivity. Qed.

(** The memory after a question, loaded from its file (X14 at a concrete
    run). *)
Lemma chat_persists_witness :
  exists out a',
    sample_chat [] "A monoid." Sample.question Sample.new_agent
      = (inr out, a') /\
    sample_load_from_file Sample.memory_file a' = (inr (memory a'), a').
Proof.
  eexists _, _. split.
  - vm_compute. reflexivity.
  - apply (chat_persists (Sample.scripted []) Sample.now Sample.isoformat
             Sample.datetime_str Sample.timestamp_text
             Sample.datetime_validate Sample.json_loads Sample.json_dumps
             Sample.py_str Sample.memory_file (Sample.answering "A monoid.")
             Sample.question Sample.new_agent "A monoid.").
    + vm_compute. reflexivity.
    + vm_compute. reflexivity.
    + constructor.
    + constructor.
Defined.

(** The invariant after a task run through [chat] (X15 at a concrete
    run). *)
Lemma chat_invariant_witness :
  memory_invariant
    (memory (snd (sample_chat Sample.failing_step_script ""
                    Sample.task_message Sample.new_agent))).
Proof.
  apply (chat_invariant (Sample.scripted Sample.failing_step_script)
           Sample.now Sample.isoformat Sample.datetime_str
           Sample.timestamp_text Sample.datetime_validate Sample.json_loads
           Sample.json_dumps Sample.py_str Sample.memory_file
           (Sample.answering "") Sample.task_message Sample.new_agent).
  split; [simpl; lia|]. intros id Hid. simpl in Hid. set_solver.
Defined.

(** A task with a model that answers every question with the empty
    object (X16 at a concrete model). *)
Lemma chat_returns_witness :
  exists out a',
    chat Sample.braced Sample.now Sample.isoformat Sample.datetime_str
      Sample.timestamp_text Sample.datetime_validate Sample.json_loads
      Sample.json_dumps Sample.py_str Sample.memory_file
      (Sample.answering "") Sample.task_message Sample.new_agent
    = (inr out, a').
Proof.
  apply (chat_returns Sample.braced Sample.now Sample.isoformat
           Sample.datetime_str Sample.timestamp_text Sample.datetime_validate
           Sample.json_loads Sample.json_dumps Sample.py_str
           Sample.memory_file (Sample.answering "") Sample.task_message
           Sample.new_agent).
  - intros n p H. discriminate H.
  - constructor.
Defined.

